(** * Mock telemetry server ([lib/defend/mock_telemetry.py])

    A shallow embedding of the request handler [MockTelemetryHandler]
    ([do_POST], [do_GET]), of [start_server] and of [main], together with
    the parts of the Python runtime they call ([int], [bytes.decode],
    [repr], [json.dumps], [time.strftime], buffered reads and text-file
    writes), followed by the properties of the handler that the
    specification states.

    Python values are modelled as follows.
    - [str] whose characters come from the wire (header names and values
      are decoded as ISO-8859-1 by [http.client.parse_headers]), labels,
      addresses and time stamps: [string], one [ascii] per character.
    - [str] in general (console lines, log-file text, decoded bodies): a
      list of code points, [pystr].
    - [bytes]: [list byte].
    - [int]: [Z], or [N]/[nat] where the value is a length or a port.
    - Side effects: a state and exception monad [M].  A raised exception
      keeps the effects performed before it, as in Python.
    - The console and the log file encode text as UTF-8.

    The environment enters as arguments: the clock a function reads, the
    outcome of binding a port, the bytes a connection delivers,
    [json.loads], and the largest buffer a read can get.  Requests are
    served one after another; what the threads of two listeners do at
    the same time is not part of the model. *)

From Stdlib Require Import Strings.String Strings.Ascii Strings.Byte.
From Stdlib Require Import List NArith ZArith Bool Lia.
From Stdlib Require Import Decimal DecimalString DecimalPos.
Import ListNotations.

Set Implicit Arguments.

(** ** Text *)

Definition pystr := list N.
Definition bytes := list byte.

(** A literal or wire-level string seen as a Python [str]. *)
Definition txt (s : string) : pystr :=
  map N_of_ascii (list_ascii_of_string s).

Definition nl : N := 10%N.

(** [str(n)] for a non-negative and for an arbitrary integer. *)
Definition dec (n : N) : string := NilZero.string_of_uint (N.to_uint n).
Definition decZ (z : Z) : string := NilZero.string_of_int (Z.to_int z).
Definition dec_nat (n : nat) : string := dec (N.of_nat n).

Definition hex_digit (n : N) : ascii :=
  match n with
  | 0 => "0" | 1 => "1" | 2 => "2" | 3 => "3" | 4 => "4" | 5 => "5"
  | 6 => "6" | 7 => "7" | 8 => "8" | 9 => "9" | 10 => "a" | 11 => "b"
  | 12 => "c" | 13 => "d" | 14 => "e" | _ => "f"
  end%N%char.

(** The two lower-case hexadecimal digits of ["%02x"] for a value below 256. *)
Definition hex2 (n : N) : string :=
  String (hex_digit (n / 16)) (String (hex_digit (n mod 16)) EmptyString).

(** The four digits of ["%04x"] for a value below 65536. *)
Definition hex4 (n : N) : string := (hex2 (n / 256) ++ hex2 (n mod 256))%string.

(** [s.startswith(prefix)] *)
Definition startswith (s p : string) : bool := String.prefix p s.

(* [s[:n]] on a [str] and on [bytes] is [firstn]. *)

(** ** Exceptions

    The exceptions that the runtime raises in this program carry
    messages of characters below 256: those of [int], [read] and
    [json.loads] are ASCII but for the [repr] of the rejected literal,
    and the codecs write the character they reject as an escape. *)

Inductive Exception : Type :=
| ValueError (msg : string)
| UnicodeDecodeError (b : byte) (start stop : nat) (reason : string)
| UnicodeEncodeError (c : N) (start stop : nat) (reason : string)
| OSError (errno : Z) (strerror : string)
| OverflowError (msg : string)
| MemoryError
| OtherException (msg : string).

Inductive BaseException : Type :=
| Exc (e : Exception)
| KeyboardInterrupt
| SystemExit (code : Z).

(** [str(e)].  [UnicodeEncodeError] is raised here for characters from
    U+D800 to U+DFFF only, which are written with four digits. *)
Definition message (e : Exception) : string :=
  match e with
  | ValueError msg => msg
  | UnicodeDecodeError b start stop reason =>
      if Nat.eqb stop (S start)
      then "'utf-8' codec can't decode byte 0x" ++ hex2 (Byte.to_N b)
           ++ " in position " ++ dec_nat start ++ ": " ++ reason
      else "'utf-8' codec can't decode bytes in position "
           ++ dec_nat start ++ "-" ++ dec_nat (stop - 1) ++ ": " ++ reason
  | UnicodeEncodeError c start stop reason =>
      if Nat.eqb stop (S start)
      then "'utf-8' codec can't encode character '\u" ++ hex4 c
           ++ "' in position " ++ dec_nat start ++ ": " ++ reason
      else "'utf-8' codec can't encode characters in position "
           ++ dec_nat start ++ "-" ++ dec_nat (stop - 1) ++ ": " ++ reason
  | OSError errno strerror => "[Errno " ++ decZ errno ++ "] " ++ strerror
  | OverflowError msg => msg
  | MemoryError => EmptyString
  | OtherException msg => msg
  end%string.

Definition str_exc (e : Exception) : pystr := txt (message e).

(** ** State *)

Inductive fmode := ModeW | ModeA.

(** What the process does to [intercepted_telemetry.log] and the listener
    threads it starts, in the order performed. *)
Inductive action :=
| FOpen (m : fmode)
| FWrite (s : pystr)
| FClose
| ThreadStart (port : N).

Record state := mkState {
  stdout : list pystr;                 (* one entry per [print] call *)
  logfile : pystr;                     (* contents of the log file *)
  trace : list action;                 (* history of the process *)
  listening : list N;                  (* ports with a bound listener *)
  rfile : bytes;                       (* unread bytes of the connection *)
  resp_status : option N;              (* [send_response] *)
  resp_headers : list (string * string); (* [send_header] *)
  resp_ended : bool;                   (* [end_headers] *)
  wfile : bytes                        (* body bytes written *)
}.

Inductive result (A : Type) : Type :=
| Ok (a : A)
| Raise (e : BaseException).
Arguments Raise {A} e.

Definition M (A : Type) : Type := state -> result A * state.

Definition ret {A} (a : A) : M A := fun s => (Ok a, s).

Definition bind {A B} (c : M A) (k : A -> M B) : M B := fun s =>
  match c s with
  | (Ok a, s') => k a s'
  | (Raise e, s') => (Raise e, s')
  end.

Definition raise {A} (e : BaseException) : M A := fun s => (Raise e, s).

Notation "x <- c ;; k" := (bind c (fun x => k))
  (at level 61, c at next level, right associativity).
Notation "c ;; k" := (bind c (fun _ => k))
  (at level 61, right associativity).

(** [try: body  except <clauses>]: [clauses e] is the handler of the first
    clause that matches [e], if any. *)
Definition try_except {A} (body : M A)
           (clauses : BaseException -> option (M A)) : M A := fun s =>
  match body s with
  | (Ok a, s') => (Ok a, s')
  | (Raise e, s') =>
      match clauses e with
      | Some h => h s'
      | None => (Raise e, s')
      end
  end.

(** [except Exception as e:] *)
Definition except_Exception {A} (h : Exception -> M A)
  : BaseException -> option (M A) :=
  fun e => match e with Exc e' => Some (h e') | _ => None end.

(** [except:] *)
Definition except_all {A} (h : M A) : BaseException -> option (M A) :=
  fun _ => Some h.

(** ** [str.encode('utf-8')] of a console line

    UTF-8 encodes every character but the surrogates, U+D800 to U+DFFF.
    The encoder stops at the first of them and reports the run of
    surrogates that starts there. *)

Definition is_surrogate (c : N) : bool := (55296 <=? c)%N && (c <=? 57343)%N.

Fixpoint surrogate_run (t : pystr) : nat :=
  match t with
  | c :: r => if is_surrogate c then S (surrogate_run r) else 0
  | [] => 0
  end.

Fixpoint encode_error (pos : nat) (t : pystr) : option Exception :=
  match t with
  | [] => None
  | c :: r =>
      if is_surrogate c
      then Some (UnicodeEncodeError c pos (S pos + surrogate_run r)
                                    "surrogates not allowed")
      else encode_error (S pos) r
  end.

(** [print(line)], on a console that encodes as UTF-8: a line that
    cannot be encoded raises [UnicodeEncodeError] and nothing of it is
    written. *)
Definition print (line : pystr) : M unit := fun s =>
  match encode_error 0 line with
  | Some e => (Raise (Exc e), s)
  | None =>
      (Ok tt, mkState (stdout s ++ [line]) (logfile s) (trace s) (listening s)
                      (rfile s) (resp_status s) (resp_headers s) (resp_ended s)
                      (wfile s))
  end.

(** [open('intercepted_telemetry.log', mode)]: mode ['w'] truncates. *)
Definition f_open (m : fmode) : M unit := fun s =>
  (Ok tt, mkState (stdout s)
                  (match m with ModeW => [] | ModeA => logfile s end)
                  (trace s ++ [FOpen m]) (listening s)
                  (rfile s) (resp_status s) (resp_headers s) (resp_ended s)
                  (wfile s)).

(** [f.write(text)].  The file is opened in text mode; its encoding is
    taken to be UTF-8, which encodes every text the handler and [main]
    write to it (none holds a surrogate), and the disk to take the
    write. *)
Definition f_write (text : pystr) : M unit := fun s =>
  (Ok tt, mkState (stdout s) (logfile s ++ text)
                  (trace s ++ [FWrite text]) (listening s)
                  (rfile s) (resp_status s) (resp_headers s) (resp_ended s)
                  (wfile s)).

Definition f_close (s : state) : state :=
  mkState (stdout s) (logfile s) (trace s ++ [FClose]) (listening s)
          (rfile s) (resp_status s) (resp_headers s) (resp_ended s) (wfile s).

(** [with open(..., mode) as f: body]: the file is closed on every exit. *)
Definition with_open {A} (m : fmode) (body : M A) : M A := fun s =>
  match f_open m s with
  | (Ok _, s1) => let (r, s2) := body s1 in (r, f_close s2)
  | (Raise e, s1) => (Raise e, s1)
  end.

(** The value of a call that returns or raises an [Exception]. *)
Definition checked (A : Type) : Type := (A + Exception)%type.

Definition lift {A} (r : checked A) : M A := fun s =>
  match r with
  | inl a => (Ok a, s)
  | inr e => (Raise (Exc e), s)
  end.

(** ** [bytes.decode('utf-8', errors=...)]

    The decoder follows CPython's [utf8_decode]: a lead byte fixes the
    length of the sequence and the range allowed for the second byte
    (no overlong forms, no surrogates, nothing above U+10FFFF).  An error
    covers the lead byte and the well-formed continuation bytes already
    accepted; [errors='ignore'] drops that range and goes on after it,
    the default [errors='strict'] raises [UnicodeDecodeError]. *)

Inductive errors_mode := Strict | Ignore.

Definition cont (b : byte) : bool :=
  let n := Byte.to_N b in (128 <=? n)%N && (n <=? 191)%N.

Definition seq_len (b0 : byte) : nat :=
  let n := Byte.to_N b0 in
  if (n <? 128)%N then 1
  else if (n <? 194)%N then 0
  else if (n <? 224)%N then 2
  else if (n <? 240)%N then 3
  else if (n <? 245)%N then 4
  else 0.

Definition second_ok (b0 b1 : byte) : bool :=
  let l := Byte.to_N b0 in
  let n := Byte.to_N b1 in
  if (l =? 224)%N then (160 <=? n)%N && (n <=? 191)%N
  else if (l =? 237)%N then (128 <=? n)%N && (n <=? 159)%N
  else if (l =? 240)%N then (144 <=? n)%N && (n <=? 191)%N
  else if (l =? 244)%N then (128 <=? n)%N && (n <=? 143)%N
  else cont b1.

Definition low6 (b : byte) : N := N.land (Byte.to_N b) 63.

Definition cp2 (b0 b1 : byte) : N :=
  N.lor (N.shiftl (N.land (Byte.to_N b0) 31) 6) (low6 b1).
Definition cp3 (b0 b1 b2 : byte) : N :=
  N.lor (N.shiftl (N.land (Byte.to_N b0) 15) 12)
        (N.lor (N.shiftl (low6 b1) 6) (low6 b2)).
Definition cp4 (b0 b1 b2 b3 : byte) : N :=
  N.lor (N.shiftl (N.land (Byte.to_N b0) 7) 18)
        (N.lor (N.shiftl (low6 b1) 12)
               (N.lor (N.shiftl (low6 b2) 6) (low6 b3))).

Definition cons_ok (c : N) (r : checked pystr) : checked pystr :=
  match r with inl s => inl (c :: s) | inr e => inr e end.

(** What the error handler does with an undecodable range: [resume] is the
    decoding of the input after the range. *)
Definition recover (errors : errors_mode) (e : Exception)
           (resume : checked pystr) : checked pystr :=
  match errors with
  | Strict => inr e
  | Ignore => resume
  end.

Definition end_of_data (b0 : byte) (start stop : nat) : Exception :=
  UnicodeDecodeError b0 start stop "unexpected end of data".
Definition bad_start (b0 : byte) (start : nat) : Exception :=
  UnicodeDecodeError b0 start (1 + start) "invalid start byte".
Definition bad_cont (b0 : byte) (start stop : nat) : Exception :=
  UnicodeDecodeError b0 start stop "invalid continuation byte".

Fixpoint utf8_decode (errors : errors_mode) (pos : nat) (bs : bytes)
  : checked pystr :=
  match bs with
  | [] => inl []
  | b0 :: r0 =>
    match seq_len b0 with
    | 1 => cons_ok (Byte.to_N b0) (utf8_decode errors (1 + pos) r0)
    | 2 =>
      match r0 with
      | [] => recover errors (end_of_data b0 pos (1 + pos)) (inl [])
      | b1 :: r1 =>
        if cont b1
        then cons_ok (cp2 b0 b1) (utf8_decode errors (2 + pos) r1)
        else recover errors (bad_cont b0 pos (1 + pos))
                     (utf8_decode errors (1 + pos) r0)
      end
    | 3 =>
      match r0 with
      | [] => recover errors (end_of_data b0 pos (1 + pos)) (inl [])
      | b1 :: r1 =>
        if negb (second_ok b0 b1)
        then recover errors (bad_cont b0 pos (1 + pos))
                     (utf8_decode errors (1 + pos) r0)
        else
          match r1 with
          | [] => recover errors (end_of_data b0 pos (2 + pos)) (inl [])
          | b2 :: r2 =>
            if cont b2
            then cons_ok (cp3 b0 b1 b2) (utf8_decode errors (3 + pos) r2)
            else recover errors (bad_cont b0 pos (2 + pos))
                         (utf8_decode errors (2 + pos) r1)
          end
      end
    | 4 =>
      match r0 with
      | [] => recover errors (end_of_data b0 pos (1 + pos)) (inl [])
      | b1 :: r1 =>
        if negb (second_ok b0 b1)
        then recover errors (bad_cont b0 pos (1 + pos))
                     (utf8_decode errors (1 + pos) r0)
        else
          match r1 with
          | [] => recover errors (end_of_data b0 pos (2 + pos)) (inl [])
          | b2 :: r2 =>
            if negb (cont b2)
            then recover errors (bad_cont b0 pos (2 + pos))
                         (utf8_decode errors (2 + pos) r1)
            else
              match r2 with
              | [] => recover errors (end_of_data b0 pos (3 + pos)) (inl [])
              | b3 :: r3 =>
                if cont b3
                then cons_ok (cp4 b0 b1 b2 b3)
                             (utf8_decode errors (4 + pos) r3)
                else recover errors (bad_cont b0 pos (3 + pos))
                             (utf8_decode errors (3 + pos) r2)
              end
          end
      end
    | _ => recover errors (bad_start b0 pos) (utf8_decode errors (1 + pos) r0)
    end
  end.

(** [data.decode('utf-8')] and [data.decode('utf-8', errors='ignore')] *)
Definition decode (errors : errors_mode) (data : bytes) : M pystr :=
  lift (utf8_decode errors 0 data).

Definition bs (s : string) : bytes := list_byte_of_string s.


(** ** Characters *)

Definition code (c : ascii) : N := N_of_ascii c.

(** The double quote, the backslash and the apostrophe. *)
Definition dquote : ascii := ascii_of_N 34.
Definition bslash : ascii := ascii_of_N 92.
Definition squote : ascii := ascii_of_N 39.

Definition str1 (c : ascii) : string := String c EmptyString.

Definition is_digit (c : ascii) : bool :=
  (48 <=? code c)%N && (code c <=? 57)%N.

(** The characters below 256 that [int] skips around a number: the
    white space of C among the ASCII characters, and the two spaces of
    Unicode above them. *)
Definition is_space (c : ascii) : bool :=
  let n := code c in
  ((9 <=? n)%N && (n <=? 13)%N) || (n =? 32)%N
  || (n =? 133)%N || (n =? 160)%N.

Fixpoint lstrip (s : string) : string :=
  match s with
  | String c r => if is_space c then lstrip r else s
  | EmptyString => EmptyString
  end.

Fixpoint rev_string (acc s : string) : string :=
  match s with
  | EmptyString => acc
  | String c r => rev_string (String c acc) r
  end.

(** [s] without the white space at both ends. *)
Definition strip (s : string) : string :=
  rev_string EmptyString (lstrip (rev_string EmptyString (lstrip s))).

(** [str.lower] on header names, which [email.feedparser] restricts to
    printable ASCII. *)
Definition lower_char (c : ascii) : ascii :=
  if ((65 <=? code c)%N && (code c <=? 90)%N)
  then ascii_of_N (code c + 32) else c.

Fixpoint lower (s : string) : string :=
  match s with
  | EmptyString => EmptyString
  | String c r => String (lower_char c) (lower r)
  end.

Fixpoint contains_char (c : ascii) (s : string) : bool :=
  match s with
  | EmptyString => false
  | String d r => Ascii.eqb c d || contains_char c r
  end.

(** ** [int(x)]

    [x] is what [headers.get('Content-Length', 0)] returns: the header
    value, a [str], or the default, the [int] 0.  A literal is a sign,
    then digits with single underscores between them, with white space
    around; one of more than 4300 digits is rejected
    ([sys.get_int_max_str_digits()]). *)

Inductive str_or_int :=
| PyStr (s : string)
| PyInt (z : Z).

(** Digits, with single underscores allowed between two digits. *)
Fixpoint parse_digits (s : string) (acc : N) (after_digit : bool)
  : option N :=
  match s with
  | EmptyString => if after_digit then Some acc else None
  | String c r =>
      if is_digit c then parse_digits r (10 * acc + (code c - 48))%N true
      else if Ascii.eqb c "_"
           then (if after_digit then parse_digits r acc false else None)
           else None
  end.

Definition int_max_str_digits : N := 4300.

(** A literal without its sign. *)
Definition unsigned_part (t : string) : string :=
  match t with
  | String "-" r => r
  | String "+" r => r
  | r => r
  end.

(** The number of digits in the run of digits and underscores at the
    head of a text, and whether the underscores of that run stand
    between two digits. *)
Fixpoint run_digits (s : string) : N :=
  match s with
  | String c r =>
      if is_digit c then N.succ (run_digits r)
      else if Ascii.eqb c "_" then run_digits r
      else 0
  | EmptyString => 0
  end.

Fixpoint run_ok (s : string) (after_digit : bool) : bool :=
  match s with
  | String c r =>
      if is_digit c then run_ok r true
      else if Ascii.eqb c "_" then after_digit && run_ok r false
      else after_digit
  | EmptyString => after_digit
  end.

Definition too_many_digits (s : string) : bool :=
  (int_max_str_digits <? run_digits (unsigned_part (strip s)))%N.

(** The value of [int(s)], when the call returns. *)
Definition parse_int (s : string) : option Z :=
  if too_many_digits s then None
  else
    match strip s with
    | String "-" r =>
        option_map (fun n => (- Z.of_N n)%Z) (parse_digits r 0 false)
    | String "+" r => option_map Z.of_N (parse_digits r 0 false)
    | r => option_map Z.of_N (parse_digits r 0 false)
    end.

(** ** [repr]

    [repr] of a [str] whose characters are below 256, and of [bytes]:
    the quote is the apostrophe unless the text holds an apostrophe and no
    double quote; the quote and the backslash are escaped, tab, line feed
    and carriage return get their letter, every other non-printable
    character is written [\xhh]. *)

Definition printable_latin1 (n : N) : bool :=
  ((32 <=? n)%N && (n <? 127)%N) || ((161 <=? n)%N && negb (n =? 173)%N).

Definition printable_ascii (n : N) : bool := (32 <=? n)%N && (n <? 127)%N.

Definition escape_char (printable : N -> bool) (quote c : ascii) : string :=
  if Ascii.eqb c quote || Ascii.eqb c bslash then String bslash (str1 c)
  else if (code c =? 9)%N then String bslash "t"
  else if (code c =? 10)%N then String bslash "n"
  else if (code c =? 13)%N then String bslash "r"
  else if printable (code c) then str1 c
  else String bslash (String "x" (hex2 (code c))).

Fixpoint escape_string (printable : N -> bool) (quote : ascii) (s : string)
  : string :=
  match s with
  | EmptyString => EmptyString
  | String c r =>
      (escape_char printable quote c ++ escape_string printable quote r)%string
  end.

Definition pick_quote (s : string) : ascii :=
  if contains_char squote s && negb (contains_char dquote s)
  then dquote else squote.

Definition quoted (printable : N -> bool) (s : string) : string :=
  let q := pick_quote s in
  String q (escape_string printable q s ++ str1 q)%string.

Definition repr_str (s : string) : string := quoted printable_latin1 s.

Definition repr_bytes (b : bytes) : string :=
  String "b" (quoted printable_ascii (string_of_list_byte b)).

Fixpoint join (sep : string) (l : list string) : string :=
  match l with
  | [] => EmptyString
  | [x] => x
  | x :: r => (x ++ sep ++ join sep r)%string
  end.

(** A value of the header [dict]: a [str], or [None]. *)
Definition repr_value (v : option string) : string :=
  match v with
  | Some s => repr_str s
  | None => "None"
  end.

(** [repr] of a [dict] with [str] keys, in insertion order. *)
Definition repr_dict (d : list (string * option string)) : string :=
  ("{" ++ join ", " (map (fun kv => repr_str (fst kv) ++ ": "
                                    ++ repr_value (snd kv)) d) ++ "}")%string.

(** The message of the [ValueError] of [int(s)]: the digits are counted
    once the run is seen to be well formed, and before what follows the
    run is looked at; a literal that is rejected is shown by the first
    200 characters of its [repr]. *)
Definition int_error (s : string) : string :=
  let u := unsigned_part (strip s) in
  (if run_ok u false && too_many_digits s
  then "Exceeds the limit (4300 digits) for integer string conversion: value has "
       ++ dec (run_digits u)
       ++ " digits; use sys.set_int_max_str_digits() to increase the limit"
  else "invalid literal for int() with base 10: "
       ++ substring 0 200 (repr_str s))%string.

(** [int(x)] *)
Definition int_ (x : str_or_int) : M Z :=
  match x with
  | PyInt z => ret z
  | PyStr s =>
      match parse_int s with
      | Some z => ret z
      | None => raise (Exc (ValueError (int_error s)))
      end
  end.

(** ** [json.dumps]

    [json.dumps] of a [dict] from [str] to [str], with the default
    separators and [ensure_ascii=True]: inside a string the double quote,
    the backslash and the control characters with a short form are
    escaped with a backslash, every other character outside
    space..tilde is written [\u00hh]. *)

Definition json_escape_char (c : ascii) : string :=
  if Ascii.eqb c dquote || Ascii.eqb c bslash then String bslash (str1 c)
  else if (code c =? 10)%N then String bslash "n"
  else if (code c =? 13)%N then String bslash "r"
  else if (code c =? 9)%N then String bslash "t"
  else if (code c =? 8)%N then String bslash "b"
  else if (code c =? 12)%N then String bslash "f"
  else if printable_ascii (code c) then str1 c
  else String bslash (String "u" (String "0" (String "0" (hex2 (code c))))).

Fixpoint json_escape (s : string) : string :=
  match s with
  | EmptyString => EmptyString
  | String c r => (json_escape_char c ++ json_escape r)%string
  end.

Definition json_string (s : string) : string :=
  String dquote (json_escape s ++ str1 dquote)%string.

Definition json_dumps (d : list (string * string)) : string :=
  ("{" ++ join ", " (map (fun kv => json_string (fst kv) ++ ": "
                                    ++ json_string (snd kv)) d) ++ "}")%string.

(** [text.encode()] for a text of ASCII characters, which is what
    [json.dumps] returns. *)
Definition encode (s : string) : bytes := list_byte_of_string s.

(** ** [time.strftime('%Y-%m-%d %H:%M:%S')]

    The local time read from the clock at the moment of the call. *)

Record struct_time := mkTime {
  tm_year : N; tm_mon : N; tm_mday : N;
  tm_hour : N; tm_min : N; tm_sec : N
}.

(** ["%02d"] *)
Definition dec2 (n : N) : string :=
  if (n <? 10)%N then String "0" (dec n) else dec n.

Definition strftime (t : struct_time) : string :=
  (dec (tm_year t) ++ "-" ++ dec2 (tm_mon t) ++ "-" ++ dec2 (tm_mday t)
   ++ " " ++ dec2 (tm_hour t) ++ ":" ++ dec2 (tm_min t) ++ ":"
   ++ dec2 (tm_sec t))%string.


(** ** The request handler *)

(** The attributes of the handler object that the methods read. *)
Record handler := mkHandler {
  headers : list (string * string);   (* in the order received *)
  client_address : string * N;
  path : string
}.

(** [headers.get(name)]: the first header whose name matches [name]
    without regard to case. *)
Fixpoint headers_get (h : list (string * string)) (name : string)
  : option string :=
  match h with
  | [] => None
  | (k, v) :: r =>
      if String.eqb (lower k) (lower name) then Some v else headers_get r name
  end.

(** [d[k] = v] on an insertion-ordered [dict]. *)
Fixpoint dict_set (d : list (string * option string)) (k : string)
         (v : option string) : list (string * option string) :=
  match d with
  | [] => [(k, v)]
  | (k', v') :: r =>
      if String.eqb k k' then (k', v) :: r else (k', v') :: dict_set r k v
  end.

(** [dict(self.headers)]: for every name in [keys()], the value
    [self.headers[name]]. *)
Definition dict_of_headers (h : list (string * string))
  : list (string * option string) :=
  fold_left (fun d kv => dict_set d (fst kv) (headers_get h (fst kv))) h [].

(** [sys.maxsize], the largest [Py_ssize_t], on a 64-bit platform. *)
Definition sys_maxsize : Z := 9223372036854775807.

(** [self.rfile.read(n)] on the buffered reader of the connection: [n]
    bytes, fewer at end of stream; everything up to the end of the stream
    for -1; [ValueError] below -1; [OverflowError] for a length that is
    not a [Py_ssize_t]; [MemoryError] for a length above [max_read], the
    largest buffer the machine gives the reader.  [rfile] holds the bytes
    that arrive before the end of the stream; waiting for them is not
    modelled. *)
Definition rfile_read (max_read : N) (n : Z) : M bytes := fun s =>
  if (n <? -1)%Z
  then (Raise (Exc (ValueError "read length must be non-negative or -1")), s)
  else if (sys_maxsize <? n)%Z
  then (Raise (Exc (OverflowError
                      "cannot fit 'int' into an index-sized integer")), s)
  else if (Z.of_N max_read <? n)%Z
  then (Raise (Exc MemoryError), s)
  else
    let k := if (n =? -1)%Z then length (rfile s) else Z.to_nat n in
    (Ok (firstn k (rfile s)),
     mkState (stdout s) (logfile s) (trace s) (listening s)
             (skipn k (rfile s)) (resp_status s) (resp_headers s)
             (resp_ended s) (wfile s)).

Definition send_response (code : N) : M unit := fun s =>
  (Ok tt, mkState (stdout s) (logfile s) (trace s) (listening s) (rfile s)
                  (Some code) (resp_headers s) (resp_ended s) (wfile s)).

Definition send_header (k v : string) : M unit := fun s =>
  (Ok tt, mkState (stdout s) (logfile s) (trace s) (listening s) (rfile s)
                  (resp_status s) (resp_headers s ++ [(k, v)]) (resp_ended s)
                  (wfile s)).

Definition end_headers : M unit := fun s =>
  (Ok tt, mkState (stdout s) (logfile s) (trace s) (listening s) (rfile s)
                  (resp_status s) (resp_headers s) true (wfile s)).

Definition wfile_write (b : bytes) : M unit := fun s =>
  (Ok tt, mkState (stdout s) (logfile s) (trace s) (listening s) (rfile s)
                  (resp_status s) (resp_headers s) (resp_ended s)
                  (wfile s ++ b)).

Section Handler.

(** [json.loads], the text of a parsed value in an f-string and the
    largest buffer of a read are taken from the runtime. *)
Variable JSON : Type.
Variable json_loads : pystr -> checked JSON.
Variable str_json : JSON -> pystr.
Variable max_read : N.

Definition content_type (self : handler) : string :=
  match headers_get (headers self) "Content-Type" with
  | Some v => v
  | None => EmptyString
  end.

(** Lines 30-42: "Try to decode and analyze content". *)
Definition analyze_content (self : handler) (post_data : bytes)
           (data_size : nat) : M unit :=
  try_except
    (if startswith (content_type self) "application/json"
     then
       decoded <- decode Strict post_data ;;
       json_data <- lift (json_loads decoded) ;;
       print (txt "  JSON Data: " ++ str_json json_data)
     else if startswith (content_type self) "application/x-protobuf"
     then
       print (txt ("  Protocol Buffers data (binary): "
                   ++ dec_nat data_size ++ " bytes")) ;;
       print (txt ("  Sample: " ++ repr_bytes (firstn 100 post_data)
                   ++ "..."))
     else
       decoded <- decode Ignore post_data ;;
       print (txt "  Raw data: " ++ firstn 200 decoded ++ txt "..."))
    (except_Exception
       (fun e => print (txt "  Data parsing error: " ++ str_exc e))).

(** Lines 44-53: "Write to log file". *)
Definition write_log (self : handler) (timestamp : string)
           (post_data : bytes) (data_size : nat) (client_ip : string)
  : M unit :=
  with_open ModeA
    (f_write (txt (timestamp ++ " - " ++ dec_nat data_size ++ " bytes from "
                   ++ client_ip) ++ [nl]) ;;
     f_write (txt ("Headers: " ++ repr_dict (dict_of_headers (headers self)))
              ++ [nl]) ;;
     try_except
       (decoded_data <- decode Ignore post_data ;;
        f_write (txt "Data: " ++ decoded_data ++ [nl]))
       (except_all
          (f_write (txt ("Binary data: " ++ dec_nat data_size ++ " bytes")
                    ++ [nl]))) ;;
     f_write (txt "---" ++ [nl])).

(** Lines 56-58 and 66 of [do_POST], 73-75 and 82 of [do_GET]: the same
    four calls, on the [dict] built in between. *)
Definition send_json (response : list (string * string)) : M unit :=
  send_response 200 ;;
  send_header "Content-type" "application/json" ;;
  end_headers ;;
  wfile_write (encode (json_dumps response)).

(** [do_POST]; [now] is the clock as read on line 21. *)
Definition do_POST (self : handler) (now : struct_time) : M unit :=
  content_length <-
    int_ (match headers_get (headers self) "Content-Length" with
          | Some v => PyStr v
          | None => PyInt 0
          end) ;;
  post_data <- rfile_read max_read content_length ;;
  let timestamp := strftime now in
  let data_size := length post_data in
  let client_ip := fst (client_address self) in
  print (txt ("[" ++ timestamp ++ "] INTERCEPTED telemetry from "
              ++ client_ip)) ;;
  print (txt ("  Size: " ++ dec_nat data_size ++ " bytes")) ;;
  print (txt ("  Headers: " ++ repr_dict (dict_of_headers (headers self)))) ;;
  analyze_content self post_data data_size ;;
  write_log self timestamp post_data data_size client_ip ;;
  send_json [("status", "ok"); ("message", "telemetry received");
             ("timestamp", timestamp)]%string.

(** [do_GET]; [now] is the clock as read on line 70. *)
Definition do_GET (self : handler) (now : struct_time) : M unit :=
  let timestamp := strftime now in
  print (txt ("[" ++ timestamp ++ "] GET request from "
              ++ fst (client_address self) ++ ": " ++ path self)) ;;
  send_json [("status", "healthy"); ("service", "mock-telemetry-server");
             ("timestamp", timestamp)]%string.

End Handler.

(** ** [start_server] and [main] *)

(** What [socketserver.TCPServer(("127.0.0.1", port), ...)] does in the
    environment the process runs in. *)
Inductive bind_outcome :=
| Bound
| BindRaises (e : BaseException).

Definition add_listener (port : N) : M unit := fun s =>
  (Ok tt, mkState (stdout s) (logfile s) (trace s) (listening s ++ [port])
                  (rfile s) (resp_status s) (resp_headers s) (resp_ended s)
                  (wfile s)).

(** [start_server(port, server_name)].  [httpd.serve_forever()] does not
    return: the thread goes on serving, which is recorded in
    [listening]. *)
Definition start_server (port : N) (server_name : string)
           (tcp_server : bind_outcome) : M unit :=
  try_except
    (match tcp_server with
     | BindRaises e => raise e
     | Bound =>
         print (txt ("Mock " ++ server_name ++ " server running on localhost:"
                     ++ dec port)) ;;
         add_listener port
     end)
    (fun e =>
       match e with
       | Exc (OSError errno strerror) =>
           Some (if (errno =? 98)%Z
                 then print (txt ("Port " ++ dec port ++ " already in use - "
                                  ++ server_name ++ " server not started"))
                 else print (txt ("Error starting " ++ server_name
                                  ++ " server on port " ++ dec port ++ ": ")
                             ++ str_exc (OSError errno strerror)))
       | KeyboardInterrupt =>
           Some (print (nl :: txt (server_name ++ " server shutting down...")))
       | _ => None
       end).

(** [thread.start()] on a daemon thread running [target]: an exception
    that leaves [target] ends that thread only.  The thread is taken to
    run up to the point where it serves or ends before [main] goes on,
    which is what the pause of 0.1 s after each start is for. *)
Definition thread_start (port : N) (target : M unit) : M unit := fun s =>
  let s1 := mkState (stdout s) (logfile s) (trace s ++ [ThreadStart port])
                    (listening s) (rfile s) (resp_status s) (resp_headers s)
                    (resp_ended s) (wfile s) in
  (Ok tt, snd (target s1)).

Fixpoint for_each {A} (l : list A) (body : A -> M unit) : M unit :=
  match l with
  | [] => ret tt
  | x :: r => body x ;; for_each r body
  end.

Fixpoint repeat_char (c : ascii) (n : nat) : string :=
  match n with
  | O => EmptyString
  | S k => String c (repeat_char c k)
  end.

Definition servers : list (N * string) :=
  [(4317%N, "OpenTelemetry GRPC"%string);
   (4318%N, "OpenTelemetry HTTP"%string);
   (16686%N, "Jaeger UI"%string)].

(** Lines 109-112: "Clean previous log". *)
Definition clean_previous_log (now : struct_time) : M unit :=
  with_open ModeW
    (f_write (txt ("Mock Telemetry Server Log Started: " ++ strftime now)
              ++ [nl]) ;;
     f_write (txt (repeat_char "=" 50) ++ [nl])).

(** [main] up to its idle loop; [now] is the clock as read on line 111,
    [tcp_server] the outcome of binding each port. *)
Definition main (now : struct_time) (tcp_server : N -> bind_outcome)
  : M unit :=
  print (txt "=== Mock Telemetry Server ===") ;;
  print (txt "This server intercepts and logs telemetry data while preventing CLI errors.") ;;
  print (txt "Press Ctrl+C to stop all servers.") ;;
  print [] ;;
  clean_previous_log now ;;
  for_each servers
    (fun srv => thread_start (fst srv)
                  (start_server (fst srv) (snd srv) (tcp_server (fst srv)))) ;;
  print [] ;;
  print (txt "Mock servers started. Monitoring telemetry interception...") ;;
  print (txt "Log file: intercepted_telemetry.log") ;;
  print [] ;;
  print (txt "Test with Gemini CLI:") ;;
  print (txt "  gemini 'test command'") ;;
  print [] ;;
  print (txt "Watch live interception:") ;;
  print (txt "  tail -f intercepted_telemetry.log") ;;
  print [].

(** ** The process: [main], then requests served one after another *)

Inductive method := GET | POST.

Record request := mkRequest {
  req_port : N;
  req_method : method;
  req_handler : handler;        (* headers, client address and path *)
  req_stream : bytes;           (* the bytes that follow the headers *)
  req_now : struct_time         (* the clock when the handler reads it *)
}.

(** A connection accepted on a listening port: the handler gets a fresh
    [rfile] and [wfile].  [socketserver] reports an exception that leaves
    the handler on stderr, closes the connection and goes on serving. *)
Definition new_connection (stream : bytes) (s : state) : state :=
  mkState (stdout s) (logfile s) (trace s) (listening s) stream None [] false
          [].

Section Process.

Variable JSON : Type.
Variable json_loads : pystr -> checked JSON.
Variable str_json : JSON -> pystr.
Variable max_read : N.

Definition handle (r : request) : M unit :=
  match req_method r with
  | POST => do_POST json_loads str_json max_read (req_handler r) (req_now r)
  | GET => do_GET (req_handler r) (req_now r)
  end.

Definition serve_request (r : request) : M unit := fun s =>
  if existsb (N.eqb (req_port r)) (listening s)
  then (Ok tt, snd (handle r (new_connection (req_stream r) s)))
  else (Ok tt, s).

Definition run (now : struct_time) (tcp_server : N -> bind_outcome)
           (requests : list request) : M unit :=
  main now tcp_server ;;
  for_each requests serve_request.

End Process.

(** A process starts with nothing printed, no listener and no history;
    the log file is what the previous run left. *)
Definition boot (previous_log : pystr) : state :=
  mkState [] previous_log [] [] [] None [] false [].

(** ** A stand-in for [json.loads]

    The handler is verified for every [json.loads]; the examples run it
    with this one, which knows the three literal names of JSON and one
    string, the eight characters that spell the escape of U+D800 between
    double quotes, and, like the real one, raises a [ValueError] on
    anything else.  The string is the one character U+D800: [json.loads]
    takes the escape of a surrogate that has no partner as it stands. *)

Module Literals.

Inductive JSON := JNull | JBool (b : bool) | JString (s : pystr).

(** The JSON text of the string U+D800. *)
Definition lone_surrogate : string :=
  String dquote ("\ud800" ++ str1 dquote)%string.

Definition json_loads (text : pystr) : checked JSON :=
  if list_eq_dec N.eq_dec text (txt "null") then inl JNull
  else if list_eq_dec N.eq_dec text (txt "true") then inl (JBool true)
  else if list_eq_dec N.eq_dec text (txt "false") then inl (JBool false)
  else if list_eq_dec N.eq_dec text (txt lone_surrogate)
       then inl (JString [55296%N])
  else inr (ValueError "Expecting value: line 1 column 1 (char 0)").

Definition str_json (v : JSON) : pystr :=
  match v with
  | JNull => txt "None"
  | JBool true => txt "True"
  | JBool false => txt "False"
  | JString s => s
  end.

End Literals.

(** ** Vocabulary of the statements *)

Definition quote (s : string) : string := String dquote (s ++ str1 dquote).

Fixpoint all_chars (P : ascii -> bool) (s : string) : bool :=
  match s with
  | EmptyString => true
  | String c r => P c && all_chars P r
  end.

(** Characters that [json.dumps] copies as they are. *)
Definition json_plain (c : ascii) : bool :=
  printable_ascii (code c) && negb (Ascii.eqb c dquote)
  && negb (Ascii.eqb c bslash).

(** The text of [data.decode('utf-8', errors='ignore')]. *)
Definition decode_ignore (data : bytes) : pystr :=
  match utf8_decode Ignore 0 data with
  | inl text => text
  | inr _ => []
  end.

(** The value of [int(self.headers.get('Content-Length', 0))], when the
    call returns. *)
Definition content_length (self : handler) : option Z :=
  match headers_get (headers self) "Content-Length" with
  | Some v => parse_int v
  | None => Some 0%Z
  end.

(** The lengths that [rfile.read] accepts. *)
Definition readable (max_read : N) (n : Z) : bool :=
  (-1 <=? n)%Z && (n <=? sys_maxsize)%Z && (n <=? Z.of_N max_read)%Z.

(** The response as the client sees it. *)
Record response := mkResponse {
  status : option N;
  sent_headers : list (string * string);
  body : bytes
}.

Definition response_of (s : state) : response :=
  mkResponse (resp_status s) (resp_headers s) (wfile s).

(** The acknowledgment of a POST and the answer to a GET, for a time
    stamp. *)
Definition ack_body (timestamp : string) : string :=
  ("{" ++ quote "status" ++ ": " ++ quote "ok" ++ ", "
   ++ quote "message" ++ ": " ++ quote "telemetry received" ++ ", "
   ++ quote "timestamp" ++ ": " ++ quote timestamp ++ "}")%string.

Definition health_body (timestamp : string) : string :=
  ("{" ++ quote "status" ++ ": " ++ quote "healthy" ++ ", "
   ++ quote "service" ++ ": " ++ quote "mock-telemetry-server" ++ ", "
   ++ quote "timestamp" ++ ": " ++ quote timestamp ++ "}")%string.

(** Status 200, the one header, and the bytes of a text of ASCII
    characters, one byte for each. *)
Definition json_response (text : string) : response :=
  mkResponse (Some 200%N) [("Content-type", "application/json")]%string
             (list_byte_of_string text).

(** The parts of a log entry. *)
Definition entry_head (timestamp : string) (data_size : nat)
           (client_ip : string) : pystr :=
  txt (timestamp ++ " - " ++ dec_nat data_size ++ " bytes from " ++ client_ip).

Definition entry_headers (self : handler) : pystr :=
  txt ("Headers: " ++ repr_dict (dict_of_headers (headers self))).

Definition entry_data (post_data : bytes) : pystr :=
  txt "Data: " ++ decode_ignore post_data.

Definition entry_placeholder (data_size : nat) : pystr :=
  txt ("Binary data: " ++ dec_nat data_size ++ " bytes").

Definition separator : pystr := txt "---".

Definition log_entry (self : handler) (now : struct_time) (post_data : bytes)
  : pystr :=
  entry_head (strftime now) (length post_data) (fst (client_address self))
  ++ [nl] ++ entry_headers self ++ [nl] ++ entry_data post_data ++ [nl]
  ++ separator ++ [nl].

(** The writes of one entry, as they appear in the history. *)
Definition entry_ops (self : handler) (now : struct_time) (post_data : bytes)
  : list action :=
  [FOpen ModeA;
   FWrite (entry_head (strftime now) (length post_data)
                      (fst (client_address self)) ++ [nl]);
   FWrite (entry_headers self ++ [nl]);
   FWrite (entry_data post_data ++ [nl]);
   FWrite (separator ++ [nl]);
   FClose].

(** Lines of a text: the pieces between line feeds; a text that ends
    with a line feed has as many lines as line feeds. *)
Fixpoint split_lines (cur : pystr) (t : pystr) : list pystr :=
  match t with
  | [] => match cur with [] => [] | _ => [cur] end
  | c :: r => if (c =? nl)%N then cur :: split_lines [] r
              else split_lines (cur ++ [c]) r
  end.

Definition lines (t : pystr) : list pystr := split_lines [] t.

Definition one_line (t : pystr) : Prop := ~ In nl t.

(** [needle in text] *)
Fixpoint is_prefix (p t : pystr) : bool :=
  match p, t with
  | [], _ => true
  | a :: p', b :: t' => (a =? b)%N && is_prefix p' t'
  | _ :: _, [] => false
  end.

Fixpoint contains (needle t : pystr) : bool :=
  is_prefix needle t
  || match t with
     | [] => false
     | _ :: r => contains needle r
     end.

(** A text that UTF-8 encodes: one without surrogates. *)
Definition encodable (t : pystr) : bool :=
  forallb (fun c => negb (is_surrogate c)) t.

(** The state after some lines were printed. *)
Definition printing (ls : list pystr) (s : state) : state :=
  mkState (stdout s ++ ls) (logfile s) (trace s) (listening s) (rfile s)
          (resp_status s) (resp_headers s) (resp_ended s) (wfile s).

(** ** Content interpretation as the specification words it *)

Section Interpretation.

Variable JSON : Type.
Variable json_loads : pystr -> checked JSON.
Variable str_json : JSON -> pystr.

Inductive interpretation :=
| ParsedJson (v : JSON)
| BinaryNotice (size : nat) (sample : bytes)
| RawText (shown : pystr)
| ParsingError (e : Exception).

(** (a) a content type that begins with [application/json]: decode as
    UTF-8 and parse as JSON; (b) else one that begins with
    [application/x-protobuf]: the size and the first 100 bytes; (c)
    otherwise the first 200 characters of the text decoded with invalid
    bytes ignored; a failure to decode or to parse in (a) is a parsing
    error. *)
Definition interpret (ctype : string) (post_data : bytes) : interpretation :=
  if startswith ctype "application/json" then
    match utf8_decode Strict 0 post_data with
    | inr e => ParsingError e
    | inl text =>
        match json_loads text with
        | inl v => ParsedJson v
        | inr e => ParsingError e
        end
    end
  else if startswith ctype "application/x-protobuf" then
    BinaryNotice (length post_data) (firstn 100 post_data)
  else RawText (firstn 200 (decode_ignore post_data)).

(** The line of a parsed value, and what the console shows for each
    interpretation.  A parsed value whose line the console cannot encode
    is one more exception of step (a): the line of its
    [UnicodeEncodeError] is shown instead. *)
Definition json_line (v : JSON) : pystr := txt "  JSON Data: " ++ str_json v.

Definition report (i : interpretation) : list pystr :=
  match i with
  | ParsedJson v =>
      match encode_error 0 (json_line v) with
      | None => [json_line v]
      | Some e => [txt "  Data parsing error: " ++ str_exc e]
      end
  | BinaryNotice size sample =>
      [txt ("  Protocol Buffers data (binary): " ++ dec_nat size ++ " bytes");
       txt ("  Sample: " ++ repr_bytes sample ++ "...")]
  | RawText shown => [txt "  Raw data: " ++ shown ++ txt "..."]
  | ParsingError e => [txt "  Data parsing error: " ++ str_exc e]
  end.

End Interpretation.

Arguments BinaryNotice {JSON} size sample.
Arguments RawText {JSON} shown.
Arguments ParsingError {JSON} e.

(** The state after [text] was appended to the log file by the
    operations [ops]. *)
Definition logged (text : pystr) (ops : list action) (s : state) : state :=
  mkState (stdout s) (logfile s ++ text) (trace s ++ ops) (listening s)
          (rfile s) (resp_status s) (resp_headers s) (resp_ended s) (wfile s).

(** The state after the first [k] bytes of the connection were read. *)
Definition consumed (k : nat) (s : state) : state :=
  mkState (stdout s) (logfile s) (trace s) (listening s) (skipn k (rfile s))
          (resp_status s) (resp_headers s) (resp_ended s) (wfile s).

(** The state after a JSON answer was sent. *)
Definition answered (text : string) (s : state) : state :=
  mkState (stdout s) (logfile s) (trace s) (listening s) (rfile s)
          (Some 200%N)
          (resp_headers s ++ [("Content-type", "application/json")]%string)
          true (wfile s ++ list_byte_of_string text).

(** The number of bytes [rfile.read(n)] takes from a stream. *)
Definition read_count (n : Z) (stream : bytes) : nat :=
  if (n =? -1)%Z then length stream else Z.to_nat n.

(** The three lines [do_POST] prints before it looks at the content. *)
Definition intercept_lines (self : handler) (now : struct_time)
           (post_data : bytes) : list pystr :=
  [txt ("[" ++ strftime now ++ "] INTERCEPTED telemetry from "
        ++ fst (client_address self));
   txt ("  Size: " ++ dec_nat (length post_data) ++ " bytes");
   txt ("  Headers: " ++ repr_dict (dict_of_headers (headers self)))].

(** ** Vocabulary of the process *)

(** The two lines [main] writes at the top of the log file. *)
Definition log_header (now : struct_time) : pystr :=
  txt ("Mock Telemetry Server Log Started: " ++ strftime now) ++ [nl]
  ++ txt (repeat_char "=" 50) ++ [nl].

Definition header_ops (now : struct_time) : list action :=
  [FOpen ModeW;
   FWrite (txt ("Mock Telemetry Server Log Started: " ++ strftime now)
           ++ [nl]);
   FWrite (txt (repeat_char "=" 50) ++ [nl]);
   FClose].

Definition is_truncation (a : action) : bool :=
  match a with
  | FOpen ModeW => true
  | _ => false
  end.

Definition is_bound (o : bind_outcome) : bool :=
  match o with
  | Bound => true
  | BindRaises _ => false
  end.

(** What [start_server] prints, by outcome of the bind. *)
Definition start_lines (port : N) (server_name : string) (o : bind_outcome)
  : list pystr :=
  match o with
  | Bound =>
      [txt ("Mock " ++ server_name ++ " server running on localhost:"
            ++ dec port)]
  | BindRaises (Exc (OSError errno strerror)) =>
      [if (errno =? 98)%Z
       then txt ("Port " ++ dec port ++ " already in use - " ++ server_name
                 ++ " server not started")
       else txt ("Error starting " ++ server_name ++ " server on port "
                 ++ dec port ++ ": ") ++ str_exc (OSError errno strerror)]
  | BindRaises KeyboardInterrupt =>
      [nl :: txt (server_name ++ " server shutting down...")]
  | BindRaises _ => []
  end.

(** The state once the thread of a listener has bound its port or given
    up. *)
Definition after_start (port : N) (server_name : string) (o : bind_outcome)
           (s : state) : state :=
  mkState (stdout s ++ start_lines port server_name o) (logfile s)
          (trace s ++ [ThreadStart port])
          (listening s ++ (if is_bound o then [port] else []))
          (rfile s) (resp_status s) (resp_headers s) (resp_ended s) (wfile s).

(** The body a POST handler reads, when it gets that far. *)
Definition body_read (max_read : N) (r : request) : option bytes :=
  match content_length (req_handler r) with
  | Some n =>
      if readable max_read n
      then Some (firstn (read_count n (req_stream r)) (req_stream r))
      else None
  | None => None
  end.

Definition accepted (ports : list N) (r : request) : bool :=
  existsb (N.eqb (req_port r)) ports.

(** What a request adds to the log file and to the history, given the
    listening ports. *)
Definition entry_of (max_read : N) (ports : list N) (r : request) : pystr :=
  match req_method r, body_read max_read r with
  | POST, Some post_data =>
      if accepted ports r
      then log_entry (req_handler r) (req_now r) post_data
      else []
  | _, _ => []
  end.

Definition ops_of (max_read : N) (ports : list N) (r : request)
  : list action :=
  match req_method r, body_read max_read r with
  | POST, Some post_data =>
      if accepted ports r
      then entry_ops (req_handler r) (req_now r) post_data
      else []
  | _, _ => []
  end.

Definition banner : list pystr :=
  [txt "=== Mock Telemetry Server ===";
   txt "This server intercepts and logs telemetry data while preventing CLI errors.";
   txt "Press Ctrl+C to stop all servers.";
   []].

Definition footer : list pystr :=
  [[];
   txt "Mock servers started. Monitoring telemetry interception...";
   txt "Log file: intercepted_telemetry.log";
   [];
   txt "Test with Gemini CLI:";
   txt "  gemini 'test command'";
   [];
   txt "Watch live interception:";
   txt "  tail -f intercepted_telemetry.log";
   []].

(** The ports of [servers] that are bound, in the order of [servers]. *)
Definition bound_ports (tcp_server : N -> bind_outcome) : list N :=
  filter (fun p => is_bound (tcp_server p)) (map fst servers).

Definition no_newline (c : ascii) : bool := negb (code c =? nl)%N.

(** An entry of five lines, as section 6 of the specification lists
    them: a line with the time stamp, a line with the byte count and the
    client address, the headers, the data, the separator. *)
Definition five_line_entry (timestamp : string) (data_size : nat)
           (client_ip : string) (entry : pystr) : Prop :=
  exists l1 l2 l3 l4 l5,
    lines entry = [l1; l2; l3; l4; l5]
    /\ contains (txt timestamp) l1 = true
    /\ contains (txt (dec_nat data_size)) l2 = true
    /\ contains (txt client_ip) l2 = true
    /\ is_prefix (txt "Headers: ") l3 = true
    /\ is_prefix (txt "Data: ") l4 = true
    /\ contains separator l5 = true.

(** ** Requests of the examples *)

Definition t0 : struct_time := mkTime 2025 9 6 12 0 5.

Definition client : string * N := ("127.0.0.1"%string, 50412%N).

Definition post_with (hs : list (string * string)) : handler :=
  mkHandler hs client "/v1/traces".

(** [Content-Length: abc] *)
Definition bad_length_post : handler :=
  post_with [("Host", "localhost:4318"); ("Content-Type", "application/json");
             ("Content-Length", "abc")]%string.

(** [Content-Length: five] *)
Definition worded_length_post : handler :=
  post_with [("Content-Type", "text/plain");
             ("Content-Length", "five")]%string.

(** Four bytes of protobuf, two of which are not UTF-8. *)
Definition binary_post : handler :=
  post_with [("Content-Type", "application/x-protobuf");
             ("Content-Length", "4")]%string.

Definition binary_body : bytes := [x08; x96; x01; xff].

Definition text_post : handler :=
  post_with [("Content-Type", "text/plain"); ("Content-Length", "5")]%string.

Definition json_post : handler :=
  post_with [("Content-Type", "application/json");
             ("Content-Length", "4")]%string.

(** A JSON body of eight bytes. *)
Definition string_post : handler :=
  post_with [("Content-Type", "application/json");
             ("Content-Length", "8")]%string.

(** No header at all. *)
Definition bare_post : handler := post_with [].

Definition probe : handler := mkHandler [] client "/health".

Definition all_bound : N -> bind_outcome := fun _ => Bound.

(** A machine that gives a read up to one GiB. *)
Definition one_gib : N := 1073741824.

(** Port 4318 is taken by another process. *)
Definition one_taken : N -> bind_outcome := fun p =>
  if (p =? 4318)%N
  then BindRaises (Exc (OSError 98 "Address already in use"))
  else Bound.

(** The state after [main] has cleaned the previous log. *)
Definition cleaned (now : struct_time) (s : state) : state :=
  mkState (stdout s) (log_header now) (trace s ++ header_ops now)
          (listening s) (rfile s) (resp_status s) (resp_headers s)
          (resp_ended s) (wfile s).

(** ** The idle loop of [main] and the end of the process *)

(** Lines 141-147.  [while True: time.sleep(1)] goes on until the
    interrupt arrives: [sleeps] is the number of calls of [time.sleep]
    that return before that, and the next one raises
    [KeyboardInterrupt]. *)
Fixpoint idle (sleeps : nat) : M unit :=
  match sleeps with
  | O => raise KeyboardInterrupt
  | S k => ret tt ;; idle k
  end.

(** [sys.exit(0)] *)
Definition sys_exit (code : Z) : M unit := raise (SystemExit code).

Definition wait_for_interrupt (sleeps : nat) : M unit :=
  try_except (idle sleeps)
    (fun e =>
       match e with
       | KeyboardInterrupt =>
           Some (print (nl :: txt "Shutting down mock telemetry servers...") ;;
                 sys_exit 0)
       | _ => None
       end).

Section Lifetime.

Variable JSON : Type.
Variable json_loads : pystr -> checked JSON.
Variable str_json : JSON -> pystr.
Variable max_read : N.

(** The whole of [main]: start-up, the requests that the listeners
    serve while [main] sleeps, and the interrupt. *)
Definition lifetime (now : struct_time) (tcp_server : N -> bind_outcome)
           (requests : list request) (sleeps : nat) : M unit :=
  run json_loads str_json max_read now tcp_server requests ;;
  wait_for_interrupt sleeps.

End Lifetime.

(** ** Vocabulary of the further properties *)

(** The names of a list in the order of their first occurrence, those of
    [seen] left out. *)
Fixpoint first_occurrences (seen : list string) (l : list string)
  : list string :=
  match l with
  | [] => []
  | k :: r =>
      if existsb (String.eqb k) seen then first_occurrences seen r
      else k :: first_occurrences (seen ++ [k]) r
  end.

(** The same headers under other spellings of their names. *)
Definition rename_headers (f : string -> string) (h : list (string * string))
  : list (string * string) :=
  map (fun kv => (f (fst kv), snd kv)) h.

Definition is_ascii_byte (b : byte) : bool := (Byte.to_N b <? 128)%N.

(** What the console, the log file, its history and the listeners are:
    the part of the state that outlives a connection. *)
Definition same_world (s s' : state) : Prop :=
  stdout s = stdout s' /\ logfile s = logfile s'
  /\ trace s = trace s' /\ listening s = listening s'.

(** The decimal value of a digit string read after [acc]. *)
Fixpoint uint_value (d : Decimal.uint) (acc : N) : N :=
  match d with
  | Nil => acc
  | D0 l => uint_value l (10 * acc + 0)
  | D1 l => uint_value l (10 * acc + 1)
  | D2 l => uint_value l (10 * acc + 2)
  | D3 l => uint_value l (10 * acc + 3)
  | D4 l => uint_value l (10 * acc + 4)
  | D5 l => uint_value l (10 * acc + 5)
  | D6 l => uint_value l (10 * acc + 6)
  | D7 l => uint_value l (10 * acc + 7)
  | D8 l => uint_value l (10 * acc + 8)
  | D9 l => uint_value l (10 * acc + 9)
  end%N.

(** Line feeds of a text. *)
Definition line_feeds (t : pystr) : nat := count_occ N.eq_dec t nl.

(** A Unicode scalar value: a code point that is not a surrogate. *)
Definition scalar_value (c : N) : bool :=
  ((c <? 55296)%N || (57343 <? c)%N) && (c <? 1114112)%N.

(** The 256 bytes. *)
Definition all_bytes : list byte :=
  map (fun n => match Byte.of_N (N.of_nat n) with
                | Some b => b
                | None => x00
                end) (seq 0 256).

(** * Properties *)

(** ** The runtime functions on examples *)

Example decode_euro : utf8_decode Strict 0 [xe2; x82; xac] = inl [8364%N].
Proof. reflexivity. Qed.

Example decode_emoji :
  utf8_decode Strict 0 [xf0; x9f; x98; x80] = inl [128512%N].
Proof. reflexivity. Qed.

Example decode_truncated :
  option_map str_exc
    (match utf8_decode Strict 0 [x41; xe2; x82] with
     | inr e => Some e
     | inl _ => None
     end)
  = Some (txt "'utf-8' codec can't decode bytes in position 1-2: unexpected end of data").
Proof. reflexivity. Qed.

Example decode_surrogate :
  option_map str_exc
    (match utf8_decode Strict 0 [xed; xa0; x80] with
     | inr e => Some e
     | inl _ => None
     end)
  = Some (txt "'utf-8' codec can't decode byte 0xed in position 0: invalid continuation byte")
  /\ utf8_decode Ignore 0 [xed; xa0; x80; x41] = inl [65%N].
Proof. split; reflexivity. Qed.

Example decode_overlong :
  utf8_decode Ignore 0 [xc0; xaf; x2f; xe0; x80; xaf] = inl [47%N].
Proof. reflexivity. Qed.

Example parse_int_examples :
  parse_int " 12 " = Some 12%Z /\ parse_int "-1" = Some (-1)%Z
  /\ parse_int "+007" = Some 7%Z /\ parse_int "1_000" = Some 1000%Z
  /\ parse_int "abc" = None /\ parse_int EmptyString = None
  /\ parse_int "1__0" = None /\ parse_int "- 1" = None
  /\ parse_int "12.5" = None.
Proof. repeat split. Qed.

(** [int] takes 4300 digits and no more. *)
Example int_digit_limit :
  (exists z, parse_int (repeat_char "1" 4300) = Some z)
  /\ parse_int (repeat_char "1" 4301) = None
  /\ parse_int (String "-" (repeat_char "0" 4301)) = None
  /\ int_error (repeat_char "1" 4301)
     = "Exceeds the limit (4300 digits) for integer string conversion: value has 4301 digits; use sys.set_int_max_str_digits() to increase the limit"%string
  /\ int_error "12a" = "invalid literal for int() with base 10: '12a'"%string.
Proof.
  split; [|repeat split; vm_compute; reflexivity].
  destruct (parse_int (repeat_char "1" 4300)) as [z|] eqn:E;
    [eauto | vm_compute in E; discriminate E].
Qed.

(** The console takes every character but a surrogate. *)
Example print_examples :
  fst (print [8364%N; 128512%N] (boot [])) = Ok tt
  /\ print (txt "a" ++ [56448%N; 57343%N] ++ txt "b") (boot [])
     = (Raise (Exc (UnicodeEncodeError 56448 1 3 "surrogates not allowed")),
        boot [])
  /\ str_exc (UnicodeEncodeError 56448 1 3 "surrogates not allowed")
     = txt "'utf-8' codec can't encode characters in position 1-2: surrogates not allowed".
Proof. repeat split. Qed.

Example strftime_t0 : strftime t0 = "2025-09-06 12:00:05"%string.
Proof. reflexivity. Qed.

Example repr_examples :
  repr_str "it's" = String dquote ("it's" ++ str1 dquote)%string
  /\ repr_str (String (ascii_of_N 10) "x") = String squote ("\nx'")%string
  /\ repr_bytes binary_body = "b'\x08\x96\x01\xff'"%string.
Proof. repeat split. Qed.

(** Headers are looked up without regard to case, and the [dict] of the
    headers maps every spelling of a repeated name to the first value. *)
Example headers_examples :
  headers_get [("content-length", "3"); ("Content-Length", "4")]%string
              "Content-Length" = Some "3"%string
  /\ dict_of_headers [("A", "1"); ("a", "2"); ("A", "3")]%string
     = [("A", Some "1"); ("a", Some "1")]%string.
Proof. split; reflexivity. Qed.

(** ** The monad *)

Lemma bind_ok {A B} (c : M A) (k : A -> M B) s a s' :
  c s = (Ok a, s') -> bind c k s = k a s'.
Proof. intros H. unfold bind. rewrite H. reflexivity. Qed.

Lemma bind_raise {A B} (c : M A) (k : A -> M B) s e s' :
  c s = (Raise e, s') -> bind c k s = (Raise e, s').
Proof. intros H. unfold bind. rewrite H. reflexivity. Qed.

(** ** Fields of the states that the handler and [main] go through *)

Create Rewrite HintDb fields.

Ltac fields := autorewrite with fields.

Lemma stdout_printing ls s : stdout (printing ls s) = stdout s ++ ls.
Proof. reflexivity. Qed.
#[local] Hint Rewrite stdout_printing : fields.

Lemma logfile_printing ls s : logfile (printing ls s) = logfile s.
Proof. reflexivity. Qed.
#[local] Hint Rewrite logfile_printing : fields.

Lemma trace_printing ls s : trace (printing ls s) = trace s.
Proof. reflexivity. Qed.
#[local] Hint Rewrite trace_printing : fields.

Lemma listening_printing ls s : listening (printing ls s) = listening s.
Proof. reflexivity. Qed.
#[local] Hint Rewrite listening_printing : fields.

Lemma rfile_printing ls s : rfile (printing ls s) = rfile s.
Proof. reflexivity. Qed.
#[local] Hint Rewrite rfile_printing : fields.

Lemma resp_status_printing ls s : resp_status (printing ls s) = resp_status s.
Proof. reflexivity. Qed.
#[local] Hint Rewrite resp_status_printing : fields.

Lemma resp_headers_printing ls s :
  resp_headers (printing ls s) = resp_headers s.
Proof. reflexivity. Qed.
#[local] Hint Rewrite resp_headers_printing : fields.

Lemma resp_ended_printing ls s : resp_ended (printing ls s) = resp_ended s.
Proof. reflexivity. Qed.
#[local] Hint Rewrite resp_ended_printing : fields.

Lemma wfile_printing ls s : wfile (printing ls s) = wfile s.
Proof. reflexivity. Qed.
#[local] Hint Rewrite wfile_printing : fields.

Lemma stdout_logged text ops s : stdout (logged text ops s) = stdout s.
Proof. reflexivity. Qed.
#[local] Hint Rewrite stdout_logged : fields.

Lemma logfile_logged text ops s :
  logfile (logged text ops s) = logfile s ++ text.
Proof. reflexivity. Qed.
#[local] Hint Rewrite logfile_logged : fields.

Lemma trace_logged text ops s : trace (logged text ops s) = trace s ++ ops.
Proof. reflexivity. Qed.
#[local] Hint Rewrite trace_logged : fields.

Lemma listening_logged text ops s : listening (logged text ops s) = listening s.
Proof. reflexivity. Qed.
#[local] Hint Rewrite listening_logged : fields.

Lemma rfile_logged text ops s : rfile (logged text ops s) = rfile s.
Proof. reflexivity. Qed.
#[local] Hint Rewrite rfile_logged : fields.

Lemma resp_status_logged text ops s :
  resp_status (logged text ops s) = resp_status s.
Proof. reflexivity. Qed.
#[local] Hint Rewrite resp_status_logged : fields.

Lemma resp_headers_logged text ops s :
  resp_headers (logged text ops s) = resp_headers s.
Proof. reflexivity. Qed.
#[local] Hint Rewrite resp_headers_logged : fields.

Lemma resp_ended_logged text ops s :
  resp_ended (logged text ops s) = resp_ended s.
Proof. reflexivity. Qed.
#[local] Hint Rewrite resp_ended_logged : fields.

Lemma wfile_logged text ops s : wfile (logged text ops s) = wfile s.
Proof. reflexivity. Qed.
#[local] Hint Rewrite wfile_logged : fields.

Lemma stdout_consumed k s : stdout (consumed k s) = stdout s.
Proof. reflexivity. Qed.
#[local] Hint Rewrite stdout_consumed : fields.

Lemma logfile_consumed k s : logfile (consumed k s) = logfile s.
Proof. reflexivity. Qed.
#[local] Hint Rewrite logfile_consumed : fields.

Lemma trace_consumed k s : trace (consumed k s) = trace s.
Proof. reflexivity. Qed.
#[local] Hint Rewrite trace_consumed : fields.

Lemma listening_consumed k s : listening (consumed k s) = listening s.
Proof. reflexivity. Qed.
#[local] Hint Rewrite listening_consumed : fields.

Lemma rfile_consumed k s : rfile (consumed k s) = skipn k (rfile s).
Proof. reflexivity. Qed.
#[local] Hint Rewrite rfile_consumed : fields.

Lemma resp_status_consumed k s : resp_status (consumed k s) = resp_status s.
Proof. reflexivity. Qed.
#[local] Hint Rewrite resp_status_consumed : fields.

Lemma resp_headers_consumed k s : resp_headers (consumed k s) = resp_headers s.
Proof. reflexivity. Qed.
#[local] Hint Rewrite resp_headers_consumed : fields.

Lemma resp_ended_consumed k s : resp_ended (consumed k s) = resp_ended s.
Proof. reflexivity. Qed.
#[local] Hint Rewrite resp_ended_consumed : fields.

Lemma wfile_consumed k s : wfile (consumed k s) = wfile s.
Proof. reflexivity. Qed.
#[local] Hint Rewrite wfile_consumed : fields.

Lemma stdout_answered text s : stdout (answered text s) = stdout s.
Proof. reflexivity. Qed.
#[local] Hint Rewrite stdout_answered : fields.

Lemma logfile_answered text s : logfile (answered text s) = logfile s.
Proof. reflexivity. Qed.
#[local] Hint Rewrite logfile_answered : fields.

Lemma trace_answered text s : trace (answered text s) = trace s.
Proof. reflexivity. Qed.
#[local] Hint Rewrite trace_answered : fields.

Lemma listening_answered text s : listening (answered text s) = listening s.
Proof. reflexivity. Qed.
#[local] Hint Rewrite listening_answered : fields.

Lemma rfile_answered text s : rfile (answered text s) = rfile s.
Proof. reflexivity. Qed.
#[local] Hint Rewrite rfile_answered : fields.

Lemma resp_status_answered text s : resp_status (answered text s) = Some 200%N.
Proof. reflexivity. Qed.
#[local] Hint Rewrite resp_status_answered : fields.

Lemma resp_headers_answered text s :
  resp_headers (answered text s)
  = resp_headers s ++ [("Content-type", "application/json")]%string.
Proof. reflexivity. Qed.
#[local] Hint Rewrite resp_headers_answered : fields.

Lemma resp_ended_answered text s : resp_ended (answered text s) = true.
Proof. reflexivity. Qed.
#[local] Hint Rewrite resp_ended_answered : fields.

Lemma wfile_answered text s :
  wfile (answered text s) = wfile s ++ list_byte_of_string text.
Proof. reflexivity. Qed.
#[local] Hint Rewrite wfile_answered : fields.

Lemma stdout_cleaned now s : stdout (cleaned now s) = stdout s.
Proof. reflexivity. Qed.
#[local] Hint Rewrite stdout_cleaned : fields.

Lemma logfile_cleaned now s : logfile (cleaned now s) = log_header now.
Proof. reflexivity. Qed.
#[local] Hint Rewrite logfile_cleaned : fields.

Lemma trace_cleaned now s : trace (cleaned now s) = trace s ++ header_ops now.
Proof. reflexivity. Qed.
#[local] Hint Rewrite trace_cleaned : fields.

Lemma listening_cleaned now s : listening (cleaned now s) = listening s.
Proof. reflexivity. Qed.
#[local] Hint Rewrite listening_cleaned : fields.

Lemma rfile_cleaned now s : rfile (cleaned now s) = rfile s.
Proof. reflexivity. Qed.
#[local] Hint Rewrite rfile_cleaned : fields.

Lemma resp_status_cleaned now s : resp_status (cleaned now s) = resp_status s.
Proof. reflexivity. Qed.
#[local] Hint Rewrite resp_status_cleaned : fields.

Lemma resp_headers_cleaned now s :
  resp_headers (cleaned now s) = resp_headers s.
Proof. reflexivity. Qed.
#[local] Hint Rewrite resp_headers_cleaned : fields.

Lemma resp_ended_cleaned now s : resp_ended (cleaned now s) = resp_ended s.
Proof. reflexivity. Qed.
#[local] Hint Rewrite resp_ended_cleaned : fields.

Lemma wfile_cleaned now s : wfile (cleaned now s) = wfile s.
Proof. reflexivity. Qed.
#[local] Hint Rewrite wfile_cleaned : fields.

Lemma stdout_after_start port name o s :
  stdout (after_start port name o s) = stdout s ++ start_lines port name o.
Proof. reflexivity. Qed.
#[local] Hint Rewrite stdout_after_start : fields.

Lemma logfile_after_start port name o s :
  logfile (after_start port name o s) = logfile s.
Proof. reflexivity. Qed.
#[local] Hint Rewrite logfile_after_start : fields.

Lemma trace_after_start port name o s :
  trace (after_start port name o s) = trace s ++ [ThreadStart port].
Proof. reflexivity. Qed.
#[local] Hint Rewrite trace_after_start : fields.

Lemma listening_after_start port name o s :
  listening (after_start port name o s)
  = listening s ++ (if is_bound o then [port] else []).
Proof. reflexivity. Qed.
#[local] Hint Rewrite listening_after_start : fields.

Lemma rfile_after_start port name o s :
  rfile (after_start port name o s) = rfile s.
Proof. reflexivity. Qed.
#[local] Hint Rewrite rfile_after_start : fields.

Lemma resp_status_after_start port name o s :
  resp_status (after_start port name o s) = resp_status s.
Proof. reflexivity. Qed.
#[local] Hint Rewrite resp_status_after_start : fields.

Lemma resp_headers_after_start port name o s :
  resp_headers (after_start port name o s) = resp_headers s.
Proof. reflexivity. Qed.
#[local] Hint Rewrite resp_headers_after_start : fields.

Lemma resp_ended_after_start port name o s :
  resp_ended (after_start port name o s) = resp_ended s.
Proof. reflexivity. Qed.
#[local] Hint Rewrite resp_ended_after_start : fields.

Lemma wfile_after_start port name o s :
  wfile (after_start port name o s) = wfile s.
Proof. reflexivity. Qed.
#[local] Hint Rewrite wfile_after_start : fields.

Lemma stdout_new_connection stream s :
  stdout (new_connection stream s) = stdout s.
Proof. reflexivity. Qed.
#[local] Hint Rewrite stdout_new_connection : fields.

Lemma logfile_new_connection stream s :
  logfile (new_connection stream s) = logfile s.
Proof. reflexivity. Qed.
#[local] Hint Rewrite logfile_new_connection : fields.

Lemma trace_new_connection stream s : trace (new_connection stream s) = trace s.
Proof. reflexivity. Qed.
#[local] Hint Rewrite trace_new_connection : fields.

Lemma listening_new_connection stream s :
  listening (new_connection stream s) = listening s.
Proof. reflexivity. Qed.
#[local] Hint Rewrite listening_new_connection : fields.

Lemma rfile_new_connection stream s : rfile (new_connection stream s) = stream.
Proof. reflexivity. Qed.
#[local] Hint Rewrite rfile_new_connection : fields.

Lemma resp_status_new_connection stream s :
  resp_status (new_connection stream s) = None.
Proof. reflexivity. Qed.
#[local] Hint Rewrite resp_status_new_connection : fields.

Lemma resp_headers_new_connection stream s :
  resp_headers (new_connection stream s) = [].
Proof. reflexivity. Qed.
#[local] Hint Rewrite resp_headers_new_connection : fields.

Lemma resp_ended_new_connection stream s :
  resp_ended (new_connection stream s) = false.
Proof. reflexivity. Qed.
#[local] Hint Rewrite resp_ended_new_connection : fields.

Lemma wfile_new_connection stream s : wfile (new_connection stream s) = [].
Proof. reflexivity. Qed.
#[local] Hint Rewrite wfile_new_connection : fields.

(** ** Decoding with [errors='ignore'] never raises *)

Lemma cons_ok_inl c r :
  (exists t, r = inl t) -> exists t, cons_ok c r = inl t.
Proof. intros [t ->]. simpl. eauto. Qed.

Lemma utf8_decode_ignore_total_aux n :
  forall data pos, length data <= n ->
                   exists text, utf8_decode Ignore pos data = inl text.
Proof.
  induction n as [|n IH]; intros data pos Hlen.
  - destruct data; [simpl; eauto | simpl in Hlen; lia].
  - destruct data as [|b0 r0]; [simpl; eauto|].
    simpl in Hlen.
    assert (H0 : forall p, exists t, utf8_decode Ignore p r0 = inl t)
      by (intros p; apply IH; lia).
    cbn [utf8_decode].
    destruct (seq_len b0) as [|[|[|[|[|k]]]]]; cbn [recover];
      try apply cons_ok_inl; try apply H0.
    + destruct r0 as [|b1 r1]; [eauto|].
      destruct (cont b1); cbn [recover];
        try apply cons_ok_inl; try apply H0; apply IH; simpl in *; lia.
    + destruct r0 as [|b1 r1]; [eauto|].
      destruct (second_ok b0 b1); cbn [negb recover]; try apply H0.
      destruct r1 as [|b2 r2]; [eauto|].
      destruct (cont b2); cbn [recover];
        try apply cons_ok_inl; apply IH; simpl in *; lia.
    + destruct r0 as [|b1 r1]; [eauto|].
      destruct (second_ok b0 b1); cbn [negb recover]; try apply H0.
      destruct r1 as [|b2 r2]; [eauto|].
      destruct (cont b2); cbn [negb recover]; [|apply IH; simpl in *; lia].
      destruct r2 as [|b3 r3]; [eauto|].
      destruct (cont b3); cbn [recover];
        try apply cons_ok_inl; apply IH; simpl in *; lia.
Qed.

Lemma utf8_decode_ignore_total data pos :
  exists text, utf8_decode Ignore pos data = inl text.
Proof. apply (utf8_decode_ignore_total_aux (n := length data)). lia. Qed.

Lemma utf8_decode_ignore data :
  utf8_decode Ignore 0 data = inl (decode_ignore data).
Proof.
  unfold decode_ignore.
  destruct (utf8_decode_ignore_total data 0) as [t ->]. reflexivity.
Qed.

Lemma decode_ignore_run data s :
  decode Ignore data s = (Ok (decode_ignore data), s).
Proof. unfold decode, lift. rewrite utf8_decode_ignore. reflexivity. Qed.

(** ** A body that is valid UTF-8 decodes the same in both modes *)

Ltac strict_case IH :=
  match goal with
  | H : recover Strict _ _ = inl _ |- _ => discriminate H
  | H : cons_ok ?c (utf8_decode Strict ?p ?r) = inl _ |- _ =>
      let t := fresh "t" in
      let E := fresh "E" in
      destruct (utf8_decode Strict p r) as [t|] eqn:E; [|discriminate H];
      injection H as <-;
      rewrite (IH r p t); [reflexivity | cbn [length] in *; lia | exact E]
  end.

Lemma strict_then_ignore_aux n :
  forall data pos text,
    length data <= n ->
    utf8_decode Strict pos data = inl text ->
    utf8_decode Ignore pos data = inl text.
Proof.
  induction n as [|n IH]; intros data pos text Hlen H.
  - destruct data; [exact H | cbn [length] in Hlen; lia].
  - destruct data as [|b0 r0]; [exact H|].
    cbn [utf8_decode] in *.
    destruct (seq_len b0) as [|[|[|[|[|k]]]]]; try strict_case IH.
    + destruct r0 as [|b1 r1]; [strict_case IH|].
      destruct (cont b1); strict_case IH.
    + destruct r0 as [|b1 r1]; [strict_case IH|].
      destruct (second_ok b0 b1); cbn [negb] in *; [|strict_case IH].
      destruct r1 as [|b2 r2]; [strict_case IH|].
      destruct (cont b2); strict_case IH.
    + destruct r0 as [|b1 r1]; [strict_case IH|].
      destruct (second_ok b0 b1); cbn [negb] in *; [|strict_case IH].
      destruct r1 as [|b2 r2]; [strict_case IH|].
      destruct (cont b2); cbn [negb] in *; [|strict_case IH].
      destruct r2 as [|b3 r3]; [strict_case IH|].
      destruct (cont b3); strict_case IH.
Qed.

Lemma strict_then_ignore data text :
  utf8_decode Strict 0 data = inl text -> decode_ignore data = text.
Proof.
  intros H. unfold decode_ignore.
  rewrite (strict_then_ignore_aux (n := length data) data 0 (le_n _) H).
  reflexivity.
Qed.

(** ** The characters of a decoded text *)

Lemma in_all_bytes b : In b all_bytes.
Proof.
  assert (H : existsb (Byte.eqb b) all_bytes = true)
    by (destruct b; vm_compute; reflexivity).
  apply existsb_exists in H as (x & Hin & Heq).
  apply Byte.byte_dec_bl in Heq. subst x. exact Hin.
Qed.

Lemma ascii_scalar b0 : seq_len b0 = 1 -> scalar_value (Byte.to_N b0) = true.
Proof.
  destruct b0; vm_compute; intros H; first [reflexivity | discriminate H].
Qed.

Lemma cp2_scalar b0 b1 :
  seq_len b0 = 2 -> cont b1 = true -> scalar_value (cp2 b0 b1) = true.
Proof.
  assert (H : forallb (fun b0 =>
                if Nat.eqb (seq_len b0) 2
                then forallb (fun b1 => if cont b1
                                        then scalar_value (cp2 b0 b1)
                                        else true) all_bytes
                else true) all_bytes = true)
    by (vm_compute; reflexivity).
  intros H0 H1. rewrite forallb_forall in H.
  specialize (H b0 (in_all_bytes b0)). rewrite H0, Nat.eqb_refl in H.
  rewrite forallb_forall in H. specialize (H b1 (in_all_bytes b1)).
  rewrite H1 in H. exact H.
Qed.

Lemma cp3_scalar b0 b1 b2 :
  seq_len b0 = 3 -> second_ok b0 b1 = true -> cont b2 = true ->
  scalar_value (cp3 b0 b1 b2) = true.
Proof.
  assert (H : forallb (fun b0 =>
                if Nat.eqb (seq_len b0) 3
                then forallb (fun b1 =>
                       if second_ok b0 b1
                       then forallb (fun b2 =>
                              if cont b2
                              then scalar_value (cp3 b0 b1 b2)
                              else true) all_bytes
                       else true) all_bytes
                else true) all_bytes = true)
    by (vm_compute; reflexivity).
  intros H0 H1 H2. rewrite forallb_forall in H.
  specialize (H b0 (in_all_bytes b0)). rewrite H0, Nat.eqb_refl in H.
  rewrite forallb_forall in H. specialize (H b1 (in_all_bytes b1)).
  rewrite H1 in H.
  rewrite forallb_forall in H. specialize (H b2 (in_all_bytes b2)).
  rewrite H2 in H. exact H.
Qed.

Lemma cp4_scalar b0 b1 b2 b3 :
  seq_len b0 = 4 -> second_ok b0 b1 = true -> cont b2 = true ->
  cont b3 = true -> scalar_value (cp4 b0 b1 b2 b3) = true.
Proof.
  assert (H : forallb (fun b0 =>
                if Nat.eqb (seq_len b0) 4
                then forallb (fun b1 =>
                       if second_ok b0 b1
                       then forallb (fun b2 =>
                              if cont b2
                              then forallb (fun b3 =>
                                     if cont b3
                                     then scalar_value (cp4 b0 b1 b2 b3)
                                     else true) all_bytes
                              else true) all_bytes
                       else true) all_bytes
                else true) all_bytes = true)
    by (vm_compute; reflexivity).
  intros H0 H1 H2 H3. rewrite forallb_forall in H.
  specialize (H b0 (in_all_bytes b0)). rewrite H0, Nat.eqb_refl in H.
  rewrite forallb_forall in H. specialize (H b1 (in_all_bytes b1)).
  rewrite H1 in H.
  rewrite forallb_forall in H. specialize (H b2 (in_all_bytes b2)).
  rewrite H2 in H.
  rewrite forallb_forall in H. specialize (H b3 (in_all_bytes b3)).
  rewrite H3 in H. exact H.
Qed.

Ltac decoded_case IH :=
  match goal with
  | H : recover ?e _ _ = inl _ |- _ =>
      destruct e; cbn [recover] in H; [discriminate H|];
      first [ injection H as <-; split; [reflexivity | cbn [length]; lia]
            | apply IH in H; [|cbn [length] in *; lia];
              destruct H; split; [assumption | cbn [length] in *; lia] ]
  | H : cons_ok ?c (utf8_decode ?e ?p ?r) = inl _ |- _ =>
      let t := fresh "t" in
      let E := fresh "E" in
      let E1 := fresh "E" in
      let E2 := fresh "E" in
      destruct (utf8_decode e p r) as [t|] eqn:E; [|discriminate H];
      injection H as <-;
      apply IH in E; [|cbn [length] in *; lia];
      destruct E as [E1 E2]; split;
      [ cbn [forallb]; rewrite E1, andb_true_r;
        first [ apply ascii_scalar; assumption
              | apply cp2_scalar; assumption
              | apply cp3_scalar; assumption
              | apply cp4_scalar; assumption ]
      | cbn [length] in *; lia ]
  end.

Lemma decoded_text_aux n :
  forall errors data pos text,
    length data <= n ->
    utf8_decode errors pos data = inl text ->
    forallb scalar_value text = true /\ length text <= length data.
Proof.
  induction n as [|n IH]; intros errors data pos text Hlen H.
  - destruct data; [|cbn [length] in Hlen; lia].
    injection H as <-. split; [reflexivity | cbn; lia].
  - destruct data as [|b0 r0];
      [injection H as <-; split; [reflexivity | cbn; lia]|].
    cbn [utf8_decode] in H.
    destruct (seq_len b0) as [|[|[|[|[|k]]]]] eqn:H0;
      try decoded_case IH.
    + destruct r0 as [|b1 r1]; [decoded_case IH|].
      destruct (cont b1) eqn:H1; decoded_case IH.
    + destruct r0 as [|b1 r1]; [decoded_case IH|].
      destruct (second_ok b0 b1) eqn:H1; cbn [negb] in H;
        [|decoded_case IH].
      destruct r1 as [|b2 r2]; [decoded_case IH|].
      destruct (cont b2) eqn:H2; decoded_case IH.
    + destruct r0 as [|b1 r1]; [decoded_case IH|].
      destruct (second_ok b0 b1) eqn:H1; cbn [negb] in H;
        [|decoded_case IH].
      destruct r1 as [|b2 r2]; [decoded_case IH|].
      destruct (cont b2) eqn:H2; cbn [negb] in H; [|decoded_case IH].
      destruct r2 as [|b3 r3]; [decoded_case IH|].
      destruct (cont b3) eqn:H3; decoded_case IH.
Qed.

Lemma decode_ignore_scalar data :
  forallb scalar_value (decode_ignore data) = true.
Proof.
  apply (decoded_text_aux (n := length data) Ignore data 0 (le_n _)).
  apply utf8_decode_ignore.
Qed.

(** ** Texts that the console encodes *)

Lemma encode_error_none t :
  encodable t = true -> forall pos, encode_error pos t = None.
Proof.
  induction t as [|c t IH]; intros H pos; [reflexivity|].
  cbn [encodable forallb] in H. apply andb_true_iff in H as [Hc Ht].
  cbn [encode_error]. destruct (is_surrogate c); [discriminate Hc|].
  apply IH. exact Ht.
Qed.

Lemma encode_error_some t :
  encodable t = false ->
  forall pos,
  exists c k stop,
    encode_error pos t
    = Some (UnicodeEncodeError c (pos + k) stop "surrogates not allowed")
    /\ is_surrogate c = true /\ nth_error t k = Some c.
Proof.
  induction t as [|c t IH]; intros H pos; [discriminate H|].
  cbn [encodable forallb] in H. cbn [encode_error].
  destruct (is_surrogate c) eqn:Hc.
  - exists c, 0, (S pos + surrogate_run t). rewrite Nat.add_0_r. auto.
  - destruct (IH H (S pos)) as (c0 & k & stop & He & Hc0 & Hn).
    exists c0, (S k), stop. rewrite Nat.add_succ_r. auto.
Qed.

Lemma encodable_app a b : encodable (a ++ b) = encodable a && encodable b.
Proof. apply forallb_app. Qed.

Lemma ascii_not_surrogate c : is_surrogate (N_of_ascii c) = false.
Proof. destruct c as [[] [] [] [] [] [] [] []]; reflexivity. Qed.

Lemma encodable_txt s : encodable (txt s) = true.
Proof.
  unfold encodable, txt. induction s as [|c s IH]; [reflexivity|].
  cbn [list_ascii_of_string map forallb].
  rewrite ascii_not_surrogate, IH. reflexivity.
Qed.

Lemma scalar_not_surrogate c : scalar_value c = true -> is_surrogate c = false.
Proof.
  unfold scalar_value, is_surrogate. intros H.
  apply andb_true_iff in H as [H _]. apply orb_true_iff in H as [H|H];
    apply N.ltb_lt in H.
  - apply andb_false_iff. left. apply N.leb_gt. exact H.
  - apply andb_false_iff. right. apply N.leb_gt. exact H.
Qed.

Lemma encodable_scalar t : forallb scalar_value t = true -> encodable t = true.
Proof.
  unfold encodable. induction t as [|c t IH]; [reflexivity|].
  cbn [forallb]. intros H. apply andb_true_iff in H as [Hc Ht].
  rewrite (scalar_not_surrogate _ Hc), (IH Ht). reflexivity.
Qed.

Lemma encodable_firstn k t : encodable t = true -> encodable (firstn k t) = true.
Proof.
  unfold encodable. revert k. induction t as [|c t IH]; intros k H.
  - rewrite firstn_nil. reflexivity.
  - destruct k as [|k]; [reflexivity|]. cbn [firstn forallb] in *.
    apply andb_true_iff in H as [Hc Ht]. rewrite Hc, (IH k Ht). reflexivity.
Qed.

Lemma encodable_decode_ignore data : encodable (decode_ignore data) = true.
Proof. apply encodable_scalar, decode_ignore_scalar. Qed.

Lemma encodable_str_exc e : encodable (str_exc e) = true.
Proof. apply encodable_txt. Qed.

(** [print] on a line that the console encodes, and on one that it does
    not. *)
Lemma print_run line s :
  encodable line = true -> print line s = (Ok tt, printing [line] s).
Proof.
  intros H. unfold print. rewrite (encode_error_none _ H). reflexivity.
Qed.

Lemma print_txt t s : print (txt t) s = (Ok tt, printing [txt t] s).
Proof. apply print_run, encodable_txt. Qed.

Lemma print_nl_txt t s :
  print (nl :: txt t) s = (Ok tt, printing [nl :: txt t] s).
Proof. apply print_run. cbn [encodable forallb]. apply encodable_txt. Qed.

Lemma print_txt_exc t e s :
  print (txt t ++ str_exc e) s = (Ok tt, printing [txt t ++ str_exc e] s).
Proof.
  apply print_run. rewrite encodable_app, encodable_txt, encodable_str_exc.
  reflexivity.
Qed.

Lemma print_nil s : print [] s = (Ok tt, printing [[]] s).
Proof. reflexivity. Qed.

(** ** Plain characters *)

Lemma all_chars_app P a b :
  all_chars P (a ++ b) = all_chars P a && all_chars P b.
Proof.
  induction a as [|c a IH]; simpl; [reflexivity|].
  rewrite IH. apply andb_assoc.
Qed.

Lemma all_chars_impl (P Q : ascii -> bool) s :
  (forall c, P c = true -> Q c = true) ->
  all_chars P s = true -> all_chars Q s = true.
Proof.
  intros HPQ. induction s as [|c s IH]; simpl; [reflexivity|].
  intros H. apply andb_true_iff in H as [Hc Hs].
  rewrite (HPQ _ Hc), (IH Hs). reflexivity.
Qed.

Lemma digits_of_uint d : all_chars is_digit (NilEmpty.string_of_uint d) = true.
Proof. induction d; simpl; auto. Qed.

Lemma dec_digits n : all_chars is_digit (dec n) = true.
Proof.
  unfold dec, NilZero.string_of_uint.
  destruct (N.to_uint n) eqn:E; try reflexivity;
    rewrite <- E; apply digits_of_uint.
Qed.

Lemma dec2_digits n : all_chars is_digit (dec2 n) = true.
Proof.
  unfold dec2. destruct (n <? 10)%N; simpl; rewrite ?dec_digits; reflexivity.
Qed.

Lemma digit_plain c : is_digit c = true -> json_plain c = true.
Proof.
  destruct c as [[] [] [] [] [] [] [] []]; vm_compute; congruence.
Qed.

Lemma strftime_chars P now :
  (forall c, is_digit c = true -> P c = true) ->
  P "-"%char = true -> P " "%char = true -> P ":"%char = true ->
  all_chars P (strftime now) = true.
Proof.
  intros Hd Hm Hs Hc. unfold strftime.
  assert (D : forall n, all_chars P (dec n) = true)
    by (intros n; apply all_chars_impl with (P := is_digit);
        [exact Hd | apply dec_digits]).
  assert (D2 : forall n, all_chars P (dec2 n) = true)
    by (intros n; apply all_chars_impl with (P := is_digit);
        [exact Hd | apply dec2_digits]).
  rewrite !all_chars_app, !D, !D2. simpl. rewrite Hm, Hs, Hc. reflexivity.
Qed.

Lemma strftime_plain now : all_chars json_plain (strftime now) = true.
Proof. apply strftime_chars; auto using digit_plain. Qed.

Lemma json_escape_char_plain c :
  json_plain c = true -> json_escape_char c = str1 c.
Proof.
  destruct c as [[] [] [] [] [] [] [] []]; vm_compute; congruence.
Qed.

Lemma json_escape_plain s : all_chars json_plain s = true -> json_escape s = s.
Proof.
  induction s as [|c s IH]; simpl; [reflexivity|].
  intros H. apply andb_true_iff in H as [Hc Hs].
  rewrite (json_escape_char_plain _ Hc), (IH Hs). reflexivity.
Qed.

Lemma json_string_plain s :
  all_chars json_plain s = true -> json_string s = quote s.
Proof.
  intros H. unfold json_string, quote. rewrite json_escape_plain; auto.
Qed.

Lemma ack_dumps now :
  json_dumps [("status", "ok"); ("message", "telemetry received");
              ("timestamp", strftime now)]%string
  = ack_body (strftime now).
Proof.
  unfold json_dumps, ack_body. cbn [map join fst snd].
  rewrite (json_string_plain _ (strftime_plain now)). reflexivity.
Qed.

Lemma health_dumps now :
  json_dumps [("status", "healthy"); ("service", "mock-telemetry-server");
              ("timestamp", strftime now)]%string
  = health_body (strftime now).
Proof.
  unfold json_dumps, health_body. cbn [map join fst snd].
  rewrite (json_string_plain _ (strftime_plain now)). reflexivity.
Qed.

(** ** The blocks of the handler *)

Section HandlerFacts.

Variable JSON : Type.
Variable json_loads : pystr -> checked JSON.
Variable str_json : JSON -> pystr.
Variable max_read : N.

Lemma printing_two a b s :
  printing [b] (printing [a] s) = printing [a; b] s.
Proof. unfold printing. simpl. rewrite <- app_assoc. reflexivity. Qed.

(** Lines 30-42 print the report of the interpretation and return. *)
Lemma analyze_content_run self post_data s :
  analyze_content json_loads str_json self post_data (length post_data) s
  = (Ok tt, printing (report str_json
                        (interpret json_loads (content_type self) post_data))
                     s).
Proof.
  unfold analyze_content, interpret, try_except.
  destruct (startswith (content_type self) "application/json").
  - unfold bind, decode, lift, except_Exception.
    destruct (utf8_decode Strict 0 post_data) as [text|e];
      [|apply print_txt_exc].
    destruct (json_loads text) as [v|e]; [|apply print_txt_exc].
    cbn [report]. fold (json_line str_json v). unfold print at 1.
    destruct (encode_error 0 (json_line str_json v)) as [e|];
      [apply print_txt_exc | reflexivity].
  - destruct (startswith (content_type self) "application/x-protobuf").
    + unfold bind. rewrite !print_txt. rewrite printing_two. reflexivity.
    + unfold bind. rewrite decode_ignore_run. cbn [report].
      rewrite print_run; [reflexivity|].
      rewrite !encodable_app, !encodable_txt, encodable_firstn
        by apply encodable_decode_ignore.
      reflexivity.
Qed.

(** Lines 44-53 append one entry and return: the fallback of the inner
    [try] is never taken. *)
Lemma write_log_run self now post_data s :
  write_log self (strftime now) post_data (length post_data)
            (fst (client_address self)) s
  = (Ok tt, logged (log_entry self now post_data)
                   (entry_ops self now post_data) s).
Proof.
  unfold write_log, with_open, try_except, bind.
  cbn [f_open f_write].
  rewrite decode_ignore_run. cbn [f_write f_close].
  unfold f_close, logged, log_entry, entry_ops, entry_head, entry_headers,
    entry_data, separator.
  cbn [stdout logfile trace listening rfile resp_status resp_headers
       resp_ended wfile].
  repeat rewrite <- app_assoc. cbn [app]. reflexivity.
Qed.

(** The file takes every entry: UTF-8 encodes its text. *)
Lemma log_entry_encodable self now post_data :
  encodable (log_entry self now post_data) = true.
Proof.
  unfold log_entry, entry_head, entry_headers, entry_data, separator.
  rewrite !encodable_app, !encodable_txt, encodable_decode_ignore.
  reflexivity.
Qed.

Lemma send_json_run d s :
  send_json d s = (Ok tt, answered (json_dumps d) s).
Proof. reflexivity. Qed.

(** [do_GET] runs to its end on every request. *)
Lemma do_GET_run self now s :
  do_GET self now s
  = (Ok tt,
     answered (health_body (strftime now))
       (printing [txt ("[" ++ strftime now ++ "] GET request from "
                       ++ fst (client_address self) ++ ": " ++ path self)] s)).
Proof.
  unfold do_GET, bind. rewrite print_txt, send_json_run, health_dumps.
  reflexivity.
Qed.

(** [do_POST] raises on the first line when [int] rejects the header. *)
Lemma do_POST_bad_length self now s v :
  headers_get (headers self) "Content-Length" = Some v ->
  parse_int v = None ->
  do_POST json_loads str_json max_read self now s
  = (Raise (Exc (ValueError (int_error v))), s).
Proof.
  intros Hget Hparse. unfold do_POST, bind, int_.
  rewrite Hget, Hparse. reflexivity.
Qed.

Lemma readable_spec n :
  readable max_read n = true
  <-> (-1 <= n)%Z /\ (n <= sys_maxsize)%Z /\ (n <= Z.of_N max_read)%Z.
Proof.
  unfold readable. rewrite !andb_true_iff, !Z.leb_le. tauto.
Qed.

(** [do_POST] raises on the second line when [read] rejects the length. *)
Lemma do_POST_unreadable self now s n :
  content_length self = Some n -> readable max_read n = false ->
  exists e, do_POST json_loads str_json max_read self now s = (Raise e, s).
Proof.
  intros Hlen Hr. unfold content_length in Hlen.
  assert (Hint : int_ (match headers_get (headers self) "Content-Length" with
                       | Some v => PyStr v
                       | None => PyInt 0
                       end) s = (Ok n, s)).
  { destruct (headers_get (headers self) "Content-Length") as [v|];
      cbn [int_]; [rewrite Hlen | injection Hlen as <-]; reflexivity. }
  unfold do_POST. rewrite (bind_ok _ _ _ Hint).
  unfold bind, rfile_read.
  destruct (Z.ltb_spec n (-1)); [eauto|].
  destruct (Z.ltb_spec sys_maxsize n); [eauto|].
  destruct (Z.ltb_spec (Z.of_N max_read) n); [eauto|].
  assert (Hn : readable max_read n = true) by (apply readable_spec; lia).
  congruence.
Qed.

(** Otherwise [do_POST] runs to its end. *)
Lemma do_POST_run self now s n :
  content_length self = Some n -> readable max_read n = true ->
  let k := read_count n (rfile s) in
  let post_data := firstn k (rfile s) in
  do_POST json_loads str_json max_read self now s
  = (Ok tt,
     answered (ack_body (strftime now))
       (logged (log_entry self now post_data) (entry_ops self now post_data)
          (printing (intercept_lines self now post_data
                     ++ report str_json
                          (interpret json_loads (content_type self) post_data))
             (consumed k s)))).
Proof.
  intros Hlen Hn k post_data. unfold content_length in Hlen.
  apply readable_spec in Hn.
  assert (Hint : int_ (match headers_get (headers self) "Content-Length" with
                       | Some v => PyStr v
                       | None => PyInt 0
                       end) s = (Ok n, s)).
  { destruct (headers_get (headers self) "Content-Length") as [v|];
      cbn [int_]; [rewrite Hlen | injection Hlen as <-]; reflexivity. }
  assert (Hread : rfile_read max_read n s = (Ok post_data, consumed k s)).
  { unfold rfile_read. destruct (Z.ltb_spec n (-1)); [lia|].
    destruct (Z.ltb_spec sys_maxsize n); [lia|].
    destruct (Z.ltb_spec (Z.of_N max_read) n); [lia | reflexivity]. }
  unfold do_POST.
  rewrite (bind_ok _ _ _ Hint). rewrite (bind_ok _ _ _ Hread).
  unfold bind at 1. rewrite print_txt.
  unfold bind at 1. rewrite print_txt.
  unfold bind at 1. rewrite print_txt.
  unfold bind at 1. rewrite analyze_content_run.
  unfold bind at 1. rewrite write_log_run.
  rewrite send_json_run, ack_dumps.
  f_equal. f_equal. f_equal.
  unfold printing, intercept_lines. cbn [stdout logfile trace listening rfile
    resp_status resp_headers resp_ended wfile].
  repeat rewrite <- app_assoc. reflexivity.
Qed.

End HandlerFacts.

(** ** [start_server] and [main] *)

Lemma start_server_run port name o s :
  exists r,
    start_server port name o s
    = (r, mkState (stdout s ++ start_lines port name o) (logfile s) (trace s)
                  (listening s ++ (if is_bound o then [port] else []))
                  (rfile s) (resp_status s) (resp_headers s) (resp_ended s)
                  (wfile s)).
Proof.
  unfold start_server, try_except.
  destruct o as [|[[msg|b p q why|c p q why|errno strerror|msg| |msg]| |code]];
    cbn [raise start_lines is_bound]; unfold bind;
    rewrite ?print_txt, ?print_nl_txt; cbn [add_listener printing];
    rewrite ?app_nil_r; try (destruct s; eexists; reflexivity).
  destruct (errno =? 98)%Z; rewrite ?print_txt, ?print_txt_exc;
    eexists; reflexivity.
Qed.

Lemma thread_start_run port name o s :
  thread_start port (start_server port name o) s
  = (Ok tt, after_start port name o s).
Proof.
  unfold thread_start.
  match goal with
  | |- context [start_server port name o ?s1] =>
      destruct (start_server_run port name o s1) as [r ->]
  end.
  reflexivity.
Qed.

Lemma clean_previous_log_run now s :
  clean_previous_log now s = (Ok tt, cleaned now s).
Proof.
  unfold clean_previous_log, with_open, bind, f_close, cleaned, log_header,
    header_ops.
  cbn [f_open f_write stdout logfile trace listening rfile resp_status
       resp_headers resp_ended wfile app].
  repeat rewrite <- app_assoc. reflexivity.
Qed.

Ltac run_step :=
  unfold bind at 1;
  first [ rewrite print_txt | rewrite print_nil | rewrite thread_start_run
        | rewrite clean_previous_log_run ];
  cbv iota beta.

Lemma start_all_run tcp_server s :
  for_each servers
    (fun srv => thread_start (fst srv)
                  (start_server (fst srv) (snd srv) (tcp_server (fst srv)))) s
  = (Ok tt,
     after_start 16686 "Jaeger UI" (tcp_server 16686%N)
       (after_start 4318 "OpenTelemetry HTTP" (tcp_server 4318%N)
          (after_start 4317 "OpenTelemetry GRPC" (tcp_server 4317%N) s))).
Proof.
  unfold servers. cbn [for_each fst snd]. do 3 run_step. reflexivity.
Qed.

(** [main] returns whatever the binds do; it leaves the log file holding
    the header alone, and the ports that could be bound listening. *)
Lemma main_run now tcp_server s :
  exists s',
    main now tcp_server s = (Ok tt, s')
    /\ logfile s' = log_header now
    /\ trace s' = trace s ++ header_ops now
                  ++ map ThreadStart (map fst servers)
    /\ listening s' = listening s ++ bound_ports tcp_server
    /\ stdout s' = stdout s ++ banner
                   ++ concat (map (fun srv => start_lines (fst srv) (snd srv)
                                                (tcp_server (fst srv)))
                                  servers)
                   ++ footer.
Proof.
  unfold main.
  do 5 run_step. unfold bind at 1. rewrite start_all_run. do 9 run_step.
  rewrite print_nil.
  eexists. split; [reflexivity|]. fields.
  repeat split.
  - repeat rewrite <- app_assoc. reflexivity.
  - repeat rewrite <- app_assoc. unfold bound_ports, servers.
    cbn [map fst filter].
    destruct (is_bound (tcp_server 4317%N)), (is_bound (tcp_server 4318%N)),
      (is_bound (tcp_server 16686%N)); reflexivity.
  - repeat rewrite <- app_assoc. unfold servers.
    cbn [map concat fst snd]. rewrite app_nil_r.
    repeat rewrite <- app_assoc. reflexivity.
Qed.

(** ** Requests *)

Section ProcessFacts.

Variable JSON : Type.
Variable json_loads : pystr -> checked JSON.
Variable str_json : JSON -> pystr.
Variable max_read : N.

(** A request leaves the listeners as they are and only ever appends to
    the log file. *)
Lemma serve_request_run r s :
  exists s',
    serve_request json_loads str_json max_read r s = (Ok tt, s')
    /\ logfile s' = logfile s ++ entry_of max_read (listening s) r
    /\ trace s' = trace s ++ ops_of max_read (listening s) r
    /\ listening s' = listening s.
Proof.
  unfold serve_request, entry_of, ops_of, accepted, body_read, handle.
  destruct (existsb (N.eqb (req_port r)) (listening s)).
  2:{ exists s. destruct (req_method r);
        [|destruct (content_length (req_handler r)) as [n|];
          [destruct (readable max_read n)|]];
        rewrite !app_nil_r; auto. }
  destruct (req_method r).
  - rewrite do_GET_run. eexists. split; [reflexivity|].
    cbn [snd]. fields. rewrite !app_nil_r. auto.
  - destruct (content_length (req_handler r)) as [n|] eqn:Hlen.
    + destruct (readable max_read n) eqn:Hn.
      * rewrite (do_POST_run json_loads str_json max_read _ (req_now r)
                   (new_connection (req_stream r) s) Hlen Hn).
        eexists. split; [reflexivity|]. cbn [snd]. fields. auto.
      * destruct (do_POST_unreadable json_loads str_json max_read _ (req_now r)
                    (new_connection (req_stream r) s) Hlen Hn) as [e ->].
        eexists. split; [reflexivity|]. cbn [snd]. fields.
        rewrite !app_nil_r. auto.
    + unfold content_length in Hlen.
      destruct (headers_get (headers (req_handler r)) "Content-Length")
        as [v|] eqn:Hget; [|discriminate].
      rewrite (do_POST_bad_length json_loads str_json max_read _ (req_now r)
                 (new_connection (req_stream r) s) Hget Hlen).
      eexists. split; [reflexivity|]. cbn [snd]. fields.
      rewrite !app_nil_r. auto.
Qed.

Lemma serve_requests_run requests :
  forall s,
  exists s',
    for_each requests (serve_request json_loads str_json max_read) s
    = (Ok tt, s')
    /\ logfile s' = logfile s
                    ++ concat (map (entry_of max_read (listening s)) requests)
    /\ trace s' = trace s
                  ++ concat (map (ops_of max_read (listening s)) requests)
    /\ listening s' = listening s.
Proof.
  induction requests as [|r rs IH]; intros s.
  - exists s. cbn. rewrite !app_nil_r. auto.
  - destruct (serve_request_run r s) as (s1 & H1 & Hlog1 & Htr1 & Hl1).
    destruct (IH s1) as (s2 & H2 & Hlog2 & Htr2 & Hl2).
    exists s2. cbn [for_each map concat].
    rewrite (bind_ok _ _ _ H1), H2, Hlog2, Htr2, Hl2, Hlog1, Htr1, Hl1.
    rewrite <- !app_assoc. auto.
Qed.

Lemma entry_ops_append self now post_data :
  forallb (fun a => negb (is_truncation a)) (entry_ops self now post_data)
  = true.
Proof. reflexivity. Qed.

Lemma ops_of_append ports r :
  forallb (fun a => negb (is_truncation a)) (ops_of max_read ports r) = true.
Proof.
  unfold ops_of.
  destruct (req_method r); [reflexivity|].
  destruct (body_read max_read r); [|reflexivity].
  destruct (accepted ports r); reflexivity.
Qed.

Lemma requests_append ports requests :
  forallb (fun a => negb (is_truncation a))
          (concat (map (ops_of max_read ports) requests)) = true.
Proof.
  induction requests as [|r rs IH]; [reflexivity|].
  cbn [map concat]. rewrite forallb_app, ops_of_append, IH. reflexivity.
Qed.

End ProcessFacts.

(** ** Lines *)

Lemma split_lines_line a :
  one_line a ->
  forall cur rest,
    split_lines cur (a ++ nl :: rest) = (cur ++ a) :: split_lines [] rest.
Proof.
  unfold one_line. induction a as [|c a IH]; intros Hnl cur rest.
  - change (split_lines cur ([] ++ nl :: rest))
      with (if (nl =? nl)%N then cur :: split_lines [] rest
            else split_lines (cur ++ [nl]) rest).
    rewrite N.eqb_refl, app_nil_r. reflexivity.
  - change (split_lines cur ((c :: a) ++ nl :: rest))
      with (if (c =? nl)%N then cur :: split_lines [] (a ++ nl :: rest)
            else split_lines (cur ++ [c]) (a ++ nl :: rest)).
    destruct (N.eqb_spec c nl) as [->|Hc]; [exfalso; apply Hnl; left; auto|].
    rewrite IH by (intros Hin; apply Hnl; right; exact Hin).
    rewrite <- app_assoc. reflexivity.
Qed.

Lemma lines_of_four a b c d :
  one_line a -> one_line b -> one_line c -> one_line d ->
  lines (a ++ [nl] ++ b ++ [nl] ++ c ++ [nl] ++ d ++ [nl]) = [a; b; c; d].
Proof.
  intros Ha Hb Hc Hd. unfold lines.
  change (a ++ [nl] ++ b ++ [nl] ++ c ++ [nl] ++ d ++ [nl])
    with (a ++ nl :: b ++ nl :: c ++ nl :: d ++ nl :: []).
  rewrite (split_lines_line Ha), (split_lines_line Hb),
    (split_lines_line Hc), (split_lines_line Hd).
  reflexivity.
Qed.

Lemma one_line_app a b : one_line a -> one_line b -> one_line (a ++ b).
Proof.
  unfold one_line. intros Ha Hb Hin.
  apply in_app_or in Hin as [H|H]; auto.
Qed.

Lemma one_line_txt s : all_chars no_newline s = true -> one_line (txt s).
Proof.
  unfold one_line, txt. induction s as [|c s IH]; cbn; [auto|].
  intros H. apply andb_true_iff in H as [Hc Hs].
  intros [Heq|Hin]; [|exact (IH Hs Hin)].
  unfold no_newline, code in Hc. rewrite Heq, N.eqb_refl in Hc. discriminate.
Qed.

Lemma digit_no_newline c : is_digit c = true -> no_newline c = true.
Proof.
  destruct c as [[] [] [] [] [] [] [] []]; vm_compute; congruence.
Qed.

Lemma dec_nat_no_newline n : all_chars no_newline (dec_nat n) = true.
Proof.
  apply all_chars_impl with (P := is_digit);
    [exact digit_no_newline | apply dec_digits].
Qed.

Lemma strftime_no_newline now : all_chars no_newline (strftime now) = true.
Proof. apply strftime_chars; auto using digit_no_newline. Qed.

(** [repr] writes a line feed as a backslash and the letter n. *)
Lemma escape_char_no_newline q c :
  q = squote \/ q = dquote ->
  all_chars no_newline (escape_char printable_latin1 q c) = true.
Proof.
  intros [-> | ->];
    destruct c as [[] [] [] [] [] [] [] []]; vm_compute; reflexivity.
Qed.

Lemma escape_string_no_newline q s :
  q = squote \/ q = dquote ->
  all_chars no_newline (escape_string printable_latin1 q s) = true.
Proof.
  intros Hq. induction s as [|c s IH]; cbn [escape_string]; [reflexivity|].
  rewrite all_chars_app, IH, (escape_char_no_newline c Hq). reflexivity.
Qed.

Lemma pick_quote_cases s : pick_quote s = squote \/ pick_quote s = dquote.
Proof.
  unfold pick_quote.
  destruct (contains_char squote s && negb (contains_char dquote s)); auto.
Qed.

Lemma repr_str_no_newline s : all_chars no_newline (repr_str s) = true.
Proof.
  unfold repr_str, quoted.
  destruct (pick_quote_cases s) as [-> | ->];
    cbn [all_chars]; rewrite all_chars_app, escape_string_no_newline by auto;
    reflexivity.
Qed.

Lemma repr_value_no_newline v : all_chars no_newline (repr_value v) = true.
Proof. destruct v; [apply repr_str_no_newline | reflexivity]. Qed.

Lemma join_no_newline l :
  Forall (fun x => all_chars no_newline x = true) l ->
  all_chars no_newline (join ", " l) = true.
Proof.
  induction 1 as [|x l Hx Hl IH]; [reflexivity|].
  destruct l as [|y l]; [exact Hx|].
  change (join ", " (x :: y :: l))
    with (x ++ ", " ++ join ", " (y :: l))%string.
  rewrite !all_chars_app, Hx, IH. reflexivity.
Qed.

Lemma repr_dict_no_newline d : all_chars no_newline (repr_dict d) = true.
Proof.
  unfold repr_dict. cbn [append all_chars].
  rewrite all_chars_app, join_no_newline; [reflexivity|].
  apply Forall_forall. intros x Hin.
  apply in_map_iff in Hin as [[k v] [<- _]]. cbn [fst snd].
  rewrite all_chars_app, repr_str_no_newline. cbn [all_chars andb].
  rewrite repr_value_no_newline. reflexivity.
Qed.

Lemma entry_headers_one_line self : one_line (entry_headers self).
Proof.
  unfold entry_headers. apply one_line_txt.
  rewrite all_chars_app, repr_dict_no_newline. reflexivity.
Qed.

Lemma entry_head_one_line now n ip :
  all_chars no_newline ip = true -> one_line (entry_head (strftime now) n ip).
Proof.
  intros Hip. unfold entry_head. apply one_line_txt.
  rewrite !all_chars_app, strftime_no_newline, dec_nat_no_newline, Hip.
  reflexivity.
Qed.

Lemma separator_one_line : one_line separator.
Proof. unfold one_line, separator. cbn. intuition discriminate. Qed.

Lemma entry_data_one_line post_data :
  one_line (decode_ignore post_data) -> one_line (entry_data post_data).
Proof.
  intros H. unfold entry_data. apply one_line_app; [|exact H].
  apply one_line_txt. reflexivity.
Qed.

(** ** The handler on a request *)

Section Requests.

Variable JSON : Type.
Variable json_loads : pystr -> checked JSON.
Variable str_json : JSON -> pystr.
Variable max_read : N.

(** [do_POST] returns only for a length that [int] and [read] accept. *)
Lemma do_POST_ok_inv self now s :
  fst (do_POST json_loads str_json max_read self now s) = Ok tt ->
  exists n, content_length self = Some n /\ readable max_read n = true.
Proof.
  intros Hok.
  destruct (content_length self) as [n|] eqn:Hlen.
  - destruct (readable max_read n) eqn:Hn; [eauto|].
    destruct (do_POST_unreadable json_loads str_json max_read _ now s Hlen Hn)
      as [e He].
    rewrite He in Hok. discriminate.
  - unfold content_length in Hlen.
    destruct (headers_get (headers self) "Content-Length") as [v|] eqn:Hget;
      [|discriminate].
    rewrite (do_POST_bad_length json_loads str_json max_read _ now s Hget
               Hlen) in Hok.
    discriminate.
Qed.

(** A handler that returns has sent the acknowledgment and nothing else. *)
Lemma do_POST_response self now stream w :
  fst (do_POST json_loads str_json max_read self now
               (new_connection stream w)) = Ok tt ->
  response_of (snd (do_POST json_loads str_json max_read self now
                            (new_connection stream w)))
  = json_response (ack_body (strftime now)).
Proof.
  intros Hok. destruct (do_POST_ok_inv _ _ _ Hok) as (n & Hlen & Hn).
  rewrite (do_POST_run json_loads str_json max_read _ now
             (new_connection stream w) Hlen Hn).
  cbn [snd]. unfold response_of, json_response. fields. reflexivity.
Qed.

(** A request without [Content-Length] is read as an empty body, logged
    with 0 bytes and acknowledged. *)
Lemma post_without_length self now stream w :
  headers_get (headers self) "Content-Length" = None ->
  let s' := snd (do_POST json_loads str_json max_read self now
                         (new_connection stream w)) in
  fst (do_POST json_loads str_json max_read self now
               (new_connection stream w)) = Ok tt
  /\ rfile s' = stream
  /\ logfile s' = logfile w ++ log_entry self now []
  /\ response_of s' = json_response (ack_body (strftime now)).
Proof.
  intros Hget.
  assert (Hlen : content_length self = Some 0%Z)
    by (unfold content_length; rewrite Hget; reflexivity).
  cbv zeta.
  rewrite (do_POST_run json_loads str_json max_read _ now
             (new_connection stream w) Hlen)
    by (apply readable_spec; unfold sys_maxsize; lia).
  cbn [fst snd]. unfold response_of. fields.
  unfold read_count. cbn [Z.eqb Z.to_nat firstn skipn]. auto.
Qed.

(** With a length [n] that the stream can supply, exactly the first [n]
    bytes are read. *)
Lemma post_reads_length self now stream w n :
  content_length self = Some (Z.of_nat n) ->
  (Z.of_nat n <= sys_maxsize)%Z -> (Z.of_nat n <= Z.of_N max_read)%Z ->
  n <= length stream ->
  let s' := snd (do_POST json_loads str_json max_read self now
                         (new_connection stream w)) in
  rfile s' = skipn n stream
  /\ logfile s' = logfile w ++ log_entry self now (firstn n stream)
  /\ length (firstn n stream) = n.
Proof.
  intros Hlen Hmax Hmem Hn. cbv zeta.
  rewrite (do_POST_run json_loads str_json max_read _ now
             (new_connection stream w) Hlen)
    by (apply readable_spec; lia).
  unfold read_count. destruct (Z.eqb_spec (Z.of_nat n) (-1)); [lia|].
  rewrite Nat2Z.id. cbn [snd]. fields.
  rewrite firstn_length_le by exact Hn. auto.
Qed.

End Requests.

Lemma filter_none {A} (P : A -> bool) l :
  forallb (fun a => negb (P a)) l = true -> filter P l = [].
Proof.
  induction l as [|a l IH]; cbn [forallb filter]; [reflexivity|].
  intros H. apply andb_true_iff in H as [Ha Hl].
  destruct (P a); [discriminate | auto].
Qed.

Lemma is_bound_true o : is_bound o = true <-> o = Bound.
Proof. destruct o; cbn; split; congruence. Qed.

(** ** The fallback of the log-file step *)

Lemma dec_starts_with_digit n :
  exists c r, dec n = String c r /\ is_digit c = true.
Proof.
  unfold dec, NilZero.string_of_uint.
  destruct (N.to_uint n); cbn; eauto.
Qed.

Lemma strftime_starts_with_digit now :
  exists c r, strftime now = String c r /\ is_digit c = true.
Proof.
  unfold strftime.
  destruct (dec_starts_with_digit (tm_year now)) as (c & r & -> & Hc).
  cbn [append]. eauto.
Qed.

(** No request gets the placeholder written: the four writes of an entry
    start with a digit, with [H], with [D] and with a dash. *)
Lemma placeholder_never_written self now post_data n :
  ~ In (FWrite (entry_placeholder n ++ [nl])) (entry_ops self now post_data).
Proof.
  unfold entry_ops, entry_head.
  destruct (strftime_starts_with_digit now) as (c & r & -> & Hc).
  intros [H|[H|[H|[H|[H|[H|[]]]]]]]; try discriminate.
  injection H as H1 _. unfold is_digit, code in Hc.
  rewrite H1 in Hc. vm_compute in Hc. discriminate.
Qed.

(** ** Runs of the process on examples *)

(** Port 4318 is taken: its listener is skipped with a warning, the two
    others start. *)
Example port_4318_taken :
  let s := snd (main t0 one_taken (boot [])) in
  listening s = [4317%N; 16686%N]
  /\ firstn 3 (skipn 4 (stdout s))
     = [txt "Mock OpenTelemetry GRPC server running on localhost:4317";
        txt "Port 4318 already in use - OpenTelemetry HTTP server not started";
        txt "Mock Jaeger UI server running on localhost:16686"].
Proof. split; vm_compute; reflexivity. Qed.

(** A JSON body is reported parsed on the console and logged as sent. *)
Example json_post_reported :
  let s := snd (do_POST Literals.json_loads Literals.str_json one_gib
                        json_post t0
                        (new_connection (bs "null") (boot []))) in
  stdout s
  = [txt "[2025-09-06 12:00:05] INTERCEPTED telemetry from 127.0.0.1";
     txt "  Size: 4 bytes";
     txt "  Headers: {'Content-Type': 'application/json', 'Content-Length': '4'}";
     txt "  JSON Data: None"]
  /\ contains (nl :: txt "Data: null" ++ [nl]) (logfile s) = true.
Proof. split; vm_compute; reflexivity. Qed.

(** A body that is not JSON, and one that is not UTF-8, under the JSON
    content type: a parsing-error line, and the acknowledgment all the
    same. *)
Example bad_json_reported :
  let r1 := do_POST Literals.json_loads Literals.str_json one_gib json_post t0
                    (new_connection (bs "nope") (boot [])) in
  let r2 := do_POST Literals.json_loads Literals.str_json one_gib json_post t0
                    (new_connection [xff; xfe; x00; x01] (boot [])) in
  last (stdout (snd r1)) []
  = txt "  Data parsing error: Expecting value: line 1 column 1 (char 0)"
  /\ last (stdout (snd r2)) []
     = txt "  Data parsing error: 'utf-8' codec can't decode byte 0xff in position 0: invalid start byte"
  /\ response_of (snd r1) = json_response (ack_body "2025-09-06 12:00:05")
  /\ response_of (snd r2) = json_response (ack_body "2025-09-06 12:00:05").
Proof. repeat split; vm_compute; reflexivity. Qed.

(** A JSON body that is the string of one surrogate: the console cannot
    encode the parsed value, which makes a parsing-error line; the body
    is logged as sent and acknowledged. *)
Example surrogate_json_reported :
  let r := do_POST Literals.json_loads Literals.str_json one_gib string_post
                   t0 (new_connection (bs Literals.lone_surrogate) (boot [])) in
  fst r = Ok tt
  /\ length (bs Literals.lone_surrogate) = 8
  /\ last (stdout (snd r)) []
     = txt "  Data parsing error: 'utf-8' codec can't encode character '\ud800' in position 13: surrogates not allowed"
  /\ contains (nl :: txt ("Data: " ++ Literals.lone_surrogate) ++ [nl])
              (logfile (snd r)) = true
  /\ response_of (snd r) = json_response (ack_body "2025-09-06 12:00:05").
Proof. repeat split; vm_compute; reflexivity. Qed.

(** Two runs in succession, each with one POST: the file holds the header
    and the entry of the second run. *)
Example second_run_only :
  let first := run Literals.json_loads Literals.str_json one_gib t0 all_bound
                   [mkRequest 4318 POST text_post (bs "hello") t0]
                   (boot []) in
  let t1 := mkTime 2025 9 6 12 30 0 in
  let second := run Literals.json_loads Literals.str_json one_gib t1 all_bound
                    [mkRequest 4317 POST bare_post [] t1]
                    (boot (logfile (snd first))) in
  logfile (snd second)
  = txt "Mock Telemetry Server Log Started: 2025-09-06 12:30:00" ++ [nl]
    ++ txt "==================================================" ++ [nl]
    ++ txt "2025-09-06 12:30:00 - 0 bytes from 127.0.0.1" ++ [nl]
    ++ txt "Headers: {}" ++ [nl] ++ txt "Data: " ++ [nl]
    ++ txt "---" ++ [nl].
Proof. vm_compute. reflexivity. Qed.

(** * The statements of the specification *)

(** C1 does not hold of the code, which misses a case.  A POST whose
    [Content-Length] header is [abc] makes [int] raise [ValueError] on
    the first line of [do_POST]: the handler is left before anything is
    printed, logged or sent, so the client gets no status, no header and
    no body, where the claim promises the 200 acknowledgment for every
    POST whatever its headers. *)
Theorem post_bad_length_unanswered :
  let s := new_connection (bs "null") (boot []) in
  do_POST Literals.json_loads Literals.str_json one_gib bad_length_post t0 s
  = (Raise (Exc (ValueError
       "invalid literal for int() with base 10: 'abc'")), s)
  /\ response_of s = mkResponse None [] []
  /\ response_of
       (snd (run Literals.json_loads Literals.str_json one_gib t0 all_bound
                 [mkRequest 4318 POST bad_length_post (bs "null") t0]
                 (boot [])))
     = mkResponse None [] [].
Proof. repeat split; vm_compute; reflexivity. Qed.

(** C2 does not hold of the code, by the same missed case as C1.  A POST
    whose [Content-Length] header is [five] is not read as an empty
    body: [int] raises, nothing is read from the connection and no entry
    with 0 bytes reaches the log file.  Without the header the body is
    empty and the entry says 0 bytes, as the claim states. *)
Theorem post_worded_length_not_empty :
  let s := new_connection (bs "hello") (boot []) in
  do_POST Literals.json_loads Literals.str_json one_gib worded_length_post
          t0 s
  = (Raise (Exc (ValueError
       "invalid literal for int() with base 10: 'five'")), s)
  /\ rfile s = bs "hello" /\ logfile s = []
  /\ logfile (snd (do_POST Literals.json_loads Literals.str_json one_gib
                           bare_post t0 s))
     = txt "2025-09-06 12:00:05 - 0 bytes from 127.0.0.1" ++ [nl]
       ++ txt "Headers: {}" ++ [nl] ++ txt "Data: " ++ [nl]
       ++ txt "---" ++ [nl].
Proof. repeat split; vm_compute; reflexivity. Qed.

(** C3 does not hold of the code, whose fallback is dead.  A POST of four
    bytes of [application/x-protobuf], two of them not UTF-8, does not
    crash the handler, and its entry has the right byte count; but the
    data line holds the text decoded with the two bytes dropped, and the
    placeholder [Binary data: 4 bytes] of the [except] branch is not
    written: [decode] with [errors='ignore'] never raises, so that no
    entry of any request has the placeholder among its writes. *)
Theorem binary_post_logged_as_text :
  let r := do_POST Literals.json_loads Literals.str_json one_gib binary_post
                   t0 (new_connection binary_body (boot [])) in
  fst r = Ok tt
  /\ logfile (snd r)
     = txt "2025-09-06 12:00:05 - 4 bytes from 127.0.0.1" ++ [nl]
       ++ txt "Headers: {'Content-Type': 'application/x-protobuf', 'Content-Length': '4'}"
       ++ [nl] ++ txt "Data: " ++ [8%N; 1%N] ++ [nl] ++ txt "---" ++ [nl]
  /\ contains (txt "Binary data") (logfile (snd r)) = false
  /\ ~ In (FWrite (entry_placeholder 4 ++ [nl])) (trace (snd r))
  /\ forall self now post_data n,
       ~ In (FWrite (entry_placeholder n ++ [nl]))
            (entry_ops self now post_data).
Proof.
  cbv zeta. split; [vm_compute; reflexivity|].
  split; [vm_compute; reflexivity|].
  split; [vm_compute; reflexivity|].
  split; [vm_compute; intuition discriminate|].
  apply placeholder_never_written.
Qed.

(** C4.  For every POST the lines 30-42 of [do_POST] print the report of
    the interpretation that the specification words: (a) a content type
    that begins with [application/json] has the body decoded as UTF-8
    and parsed, and the parsed value printed; (b) else one that begins
    with [application/x-protobuf] gets the notice and the first 100
    bytes; (c) otherwise the first 200 characters at most of the body
    decoded with invalid bytes ignored.  Every exception of step (a) is
    printed as a parsing-error line: that of the decoding, that of the
    parser, and that of [print] on a parsed value whose text holds a
    surrogate, which the console cannot encode.  The block returns in
    every case, whatever [json.loads] does, and so does the handler once
    the body is read. *)
Theorem content_interpretation
        (JSON : Type) (json_loads : pystr -> checked JSON)
        (str_json : JSON -> pystr) (max_read : N)
        (self : handler) (now : struct_time) :
  (forall post_data s,
      analyze_content json_loads str_json self post_data (length post_data) s
      = (Ok tt,
         printing (report str_json
                     (interpret json_loads (content_type self) post_data)) s))
  /\ (forall post_data,
         match interpret json_loads (content_type self) post_data with
         | ParsedJson v =>
             startswith (content_type self) "application/json" = true
             /\ exists text, utf8_decode Strict 0 post_data = inl text
                             /\ json_loads text = inl v
         | BinaryNotice size sample =>
             startswith (content_type self) "application/json" = false
             /\ startswith (content_type self) "application/x-protobuf" = true
             /\ size = length post_data /\ sample = firstn 100 post_data
         | RawText shown =>
             startswith (content_type self) "application/json" = false
             /\ startswith (content_type self) "application/x-protobuf" = false
             /\ shown = firstn 200 (decode_ignore post_data)
             /\ length shown <= 200
         | ParsingError e =>
             startswith (content_type self) "application/json" = true
             /\ (utf8_decode Strict 0 post_data = inr e
                 \/ exists text, utf8_decode Strict 0 post_data = inl text
                                 /\ json_loads text = inr e)
         end)
  /\ (forall v,
         encodable (str_json v) = true ->
         report str_json (ParsedJson v) = [txt "  JSON Data: " ++ str_json v])
  /\ (forall v,
         encodable (str_json v) = false ->
         exists c start stop,
           is_surrogate c = true
           /\ nth_error (txt "  JSON Data: " ++ str_json v) start = Some c
           /\ print (txt "  JSON Data: " ++ str_json v)
              = raise (Exc (UnicodeEncodeError c start stop
                                               "surrogates not allowed"))
           /\ report str_json (ParsedJson v)
              = [txt "  Data parsing error: "
                 ++ str_exc (UnicodeEncodeError c start stop
                                                "surrogates not allowed")])
  /\ (forall size sample,
         report str_json (BinaryNotice size sample)
         = [txt ("  Protocol Buffers data (binary): " ++ dec_nat size
                 ++ " bytes");
            txt ("  Sample: " ++ repr_bytes sample ++ "...")])
  /\ (forall shown,
         report str_json (RawText shown)
         = [txt "  Raw data: " ++ shown ++ txt "..."])
  /\ (forall e,
         report str_json (ParsingError e)
         = [txt "  Data parsing error: " ++ str_exc e])
  /\ (forall s,
         (exists n, content_length self = Some n
                    /\ readable max_read n = true)
         <-> fst (do_POST json_loads str_json max_read self now s) = Ok tt).
Proof.
  split; [intros; apply analyze_content_run|].
  split.
  { intros post_data. unfold interpret.
    destruct (startswith (content_type self) "application/json").
    + destruct (utf8_decode Strict 0 post_data) as [text|e] eqn:Hd; [|auto].
      destruct (json_loads text) as [v|e] eqn:Hj; eauto 6.
    + destruct (startswith (content_type self) "application/x-protobuf");
        repeat split.
      rewrite length_firstn. lia. }
  split.
  { intros v Hv. cbn [report]. unfold json_line.
    rewrite encode_error_none; [reflexivity|].
    rewrite encodable_app, encodable_txt. exact Hv. }
  split.
  { intros v Hv.
    assert (Hline : encodable (txt "  JSON Data: " ++ str_json v) = false)
      by (rewrite encodable_app, encodable_txt; exact Hv).
    destruct (encode_error_some _ Hline 0)
      as (c & start & stop & He & Hc & Hn).
    cbn [Nat.add] in He.
    exists c, start, stop. split; [exact Hc|]. split; [exact Hn|].
    split.
    - unfold print, raise. rewrite He. reflexivity.
    - cbn [report]. unfold json_line. rewrite He. reflexivity. }
  split; [reflexivity|]. split; [reflexivity|]. split; [reflexivity|].
  intros s. split.
  + intros (n & Hlen & Hn).
    rewrite (do_POST_run json_loads str_json max_read _ now s Hlen Hn).
    reflexivity.
  + apply do_POST_ok_inv.
Qed.

Lemma content_interpretation_witness :
  analyze_content Literals.json_loads Literals.str_json json_post
    (bs Literals.lone_surrogate) (length (bs Literals.lone_surrogate))
    (boot [])
  = (Ok tt,
     printing
       [txt "  Data parsing error: 'utf-8' codec can't encode character '\ud800' in position 13: surrogates not allowed"]
       (boot []))
  /\ exists c start stop,
       is_surrogate c = true
       /\ print (txt "  JSON Data: "
                 ++ Literals.str_json (Literals.JString [55296%N]))
          = raise (Exc (UnicodeEncodeError c start stop
                                           "surrogates not allowed")).
Proof.
  destruct (content_interpretation Literals.json_loads Literals.str_json
              one_gib json_post t0) as (Hrun & _ & _ & Hbad & _).
  split.
  - rewrite Hrun. vm_compute. reflexivity.
  - destruct (Hbad (Literals.JString [55296%N]) eq_refl)
      as (c & start & stop & Hc & _ & Hp & _).
    exists c, start, stop. split; assumption.
Defined.


(** The answer to a GET at the time of the examples, byte for byte. *)
Example get_health_bytes :
  wfile (snd (do_GET probe t0 (new_connection [] (boot []))))
  = [x7b; x22] ++ bs "status" ++ [x22; x3a; x20; x22] ++ bs "healthy"
    ++ [x22; x2c; x20; x22] ++ bs "service" ++ [x22; x3a; x20; x22]
    ++ bs "mock-telemetry-server" ++ [x22; x2c; x20; x22] ++ bs "timestamp"
    ++ [x22; x3a; x20; x22] ++ bs "2025-09-06 12:00:05" ++ [x22; x7d].
Proof. vm_compute. reflexivity. Qed.

(** C7.  For every port and label, a bind that fails with [OSError]
    makes [start_server] print one line and return: with errno 98,
    address already in use, the warning that names the port and the
    label; with any other errno the error line that names the label, the
    port and the text of the error.  [main] never raises, and after it a
    port of the table listens if and only if its own bind succeeded,
    whatever happened to the others. *)
Theorem bind_failures_are_local :
  (forall port name errno strerror s,
      start_server port name (BindRaises (Exc (OSError errno strerror))) s
      = (Ok tt,
         printing
           [if (errno =? 98)%Z
            then txt ("Port " ++ dec port ++ " already in use - " ++ name
                      ++ " server not started")
            else txt ("Error starting " ++ name ++ " server on port "
                      ++ dec port ++ ": ")
                 ++ txt ("[Errno " ++ decZ errno ++ "] " ++ strerror)] s))
  /\ (forall now tcp_server previous,
         let r := main now tcp_server (boot previous) in
         fst r = Ok tt
         /\ forall p, In p (listening (snd r))
                      <-> In p (map fst servers) /\ tcp_server p = Bound).
Proof.
  split.
  - intros port name errno strerror s.
    unfold start_server, try_except, raise.
    destruct (errno =? 98)%Z; [apply print_txt | apply print_txt_exc].
  - intros now tcp_server previous. cbv zeta.
    destruct (main_run now tcp_server (boot previous))
      as (s' & -> & _ & _ & Hl & _).
    cbn [fst snd]. split; [reflexivity|].
    intros p. rewrite Hl.
    change (listening (boot previous) ++ bound_ports tcp_server)
      with (bound_ports tcp_server).
    unfold bound_ports. rewrite filter_In, is_bound_true. reflexivity.
Qed.

(** Two POST requests whose handlers return and read the same time
    stamp off the clock have sent the same response, the acknowledgment
    for that time stamp, whatever their headers, bodies, client
    addresses and the state of the process. *)
Lemma returned_posts_same_response
        (JSON : Type) (json_loads : pystr -> checked JSON)
        (str_json : JSON -> pystr) (max_read : N)
        (self1 self2 : handler) (now1 now2 : struct_time)
        (stream1 stream2 : bytes) (w1 w2 : state) :
  strftime now1 = strftime now2 ->
  fst (do_POST json_loads str_json max_read self1 now1
               (new_connection stream1 w1)) = Ok tt ->
  fst (do_POST json_loads str_json max_read self2 now2
               (new_connection stream2 w2)) = Ok tt ->
  response_of (snd (do_POST json_loads str_json max_read self1 now1
                            (new_connection stream1 w1)))
  = response_of (snd (do_POST json_loads str_json max_read self2 now2
                              (new_connection stream2 w2)))
  /\ response_of (snd (do_POST json_loads str_json max_read self1 now1
                               (new_connection stream1 w1)))
     = json_response (ack_body (strftime now1)).
Proof.
  intros Hts H1 H2.
  rewrite (do_POST_response _ _ _ _ _ _ _ H1),
    (do_POST_response _ _ _ _ _ _ _ H2).
  rewrite Hts. auto.
Qed.

(** C10 does not hold of the code, by the same missed case as C1.  Two
    POST requests with the same body, served at the same second on
    connections of the same process, differ in the value of their
    [Content-Length] header only, [4] for the one and [abc] for the
    other.  The first gets status 200, the JSON header and the
    acknowledgment with the time stamp; the second makes [int] raise on
    the first line of [do_POST] and gets no status, no header and no
    body: the responses are not identical, where the claim promises the
    same response whatever the headers. *)
Theorem same_second_posts_answered_differently :
  let answered :=
    do_POST Literals.json_loads Literals.str_json one_gib json_post t0
            (new_connection (bs "null") (boot [])) in
  let dropped :=
    do_POST Literals.json_loads Literals.str_json one_gib bad_length_post t0
            (new_connection (bs "null") (boot [])) in
  fst answered = Ok tt
  /\ response_of (snd answered)
     = mkResponse (Some 200%N) [("Content-type", "application/json")]%string
         (list_byte_of_string
            ("{" ++ quote "status" ++ ": " ++ quote "ok" ++ ", "
             ++ quote "message" ++ ": " ++ quote "telemetry received" ++ ", "
             ++ quote "timestamp" ++ ": " ++ quote "2025-09-06 12:00:05"
             ++ "}")%string)
  /\ fst dropped
     = Raise (Exc (ValueError
                     "invalid literal for int() with base 10: 'abc'"))
  /\ response_of (snd dropped) = mkResponse None [] []
  /\ response_of (snd answered) <> response_of (snd dropped).
Proof.
  cbv zeta. split; [vm_compute; reflexivity|].
  split; [vm_compute; reflexivity|].
  split; [vm_compute; reflexivity|].
  split; [vm_compute; reflexivity|].
  vm_compute. discriminate.
Qed.

(** C5.  A run of the process, [main] and then any requests, whatever
    the previous contents of the log file and the outcome of the binds:
    the history starts with the one truncating open and the writes of the
    header line, with its time stamp, and of the rule; the listener
    threads are started after that; every later operation on the file
    belongs to an entry opened for appending.  The file ends up holding
    the header and the entries of this run only, so a second run leaves
    nothing of the first. *)
Theorem log_truncated_once
        (JSON : Type) (json_loads : pystr -> checked JSON)
        (str_json : JSON -> pystr) (max_read : N)
        (now : struct_time) (tcp_server : N -> bind_outcome)
        (requests : list request) (previous : pystr) :
  let r := run json_loads str_json max_read now tcp_server requests
               (boot previous) in
  let appends :=
    concat (map (ops_of max_read (bound_ports tcp_server)) requests) in
  fst r = Ok tt
  /\ trace (snd r)
     = header_ops now ++ map ThreadStart (map fst servers) ++ appends
  /\ forallb (fun a => negb (is_truncation a)) appends = true
  /\ filter is_truncation (trace (snd r)) = [FOpen ModeW]
  /\ logfile (snd r)
     = log_header now
       ++ concat (map (entry_of max_read (bound_ports tcp_server)) requests)
  /\ forall now' tcp_server' requests',
       logfile (snd (run json_loads str_json max_read now' tcp_server' requests'
                         (boot (logfile (snd r)))))
       = log_header now'
         ++ concat (map (entry_of max_read (bound_ports tcp_server'))
                        requests').
Proof.
  assert (Hrun : forall t tcp rs prev,
    exists s',
      run json_loads str_json max_read t tcp rs (boot prev) = (Ok tt, s')
      /\ trace s' = header_ops t ++ map ThreadStart (map fst servers)
                    ++ concat (map (ops_of max_read (bound_ports tcp)) rs)
      /\ logfile s' = log_header t
                      ++ concat (map (entry_of max_read (bound_ports tcp)) rs)).
  { intros t tcp rs prev. unfold run.
    destruct (main_run t tcp (boot prev)) as (s1 & Hm & Hlog & Htr & Hl & _).
    destruct (serve_requests_run json_loads str_json max_read rs s1)
      as (s2 & Hs & Hlog2 & Htr2 & _).
    change (listening (boot prev) ++ bound_ports tcp) with (bound_ports tcp)
      in Hl.
    change (trace (boot prev) ++ header_ops t
            ++ map ThreadStart (map fst servers))
      with (header_ops t ++ map ThreadStart (map fst servers)) in Htr.
    exists s2. rewrite (bind_ok _ _ _ Hm), Hs, Htr2, Hlog2, Htr, Hlog, Hl.
    rewrite <- !app_assoc. auto. }
  cbv zeta.
  destruct (Hrun now tcp_server requests previous) as (s' & -> & Htr & Hlog).
  cbn [fst snd]. split; [reflexivity|]. split; [exact Htr|].
  split; [apply requests_append|]. split; [|split; [exact Hlog|]].
  - rewrite Htr. rewrite !filter_app.
    rewrite (filter_none is_truncation _ (requests_append max_read _ requests)).
    reflexivity.
  - intros now' tcp' rs'.
    destruct (Hrun now' tcp' rs' (logfile s')) as (s'' & -> & _ & Hlog').
    exact Hlog'.
Qed.

(** C8 as the specification states it fails on these two requests.  The
    entry of a POST of [hello] has four lines, not five: the time stamp
    shares the first with the byte count and the client address.  The
    entry of a POST of five bytes with a line feed after the first has
    five lines, but its third is the first half of the data and not the
    headers: a body with a line feed spreads the data over two lines. *)
Lemma text_post_entry_not_five_lines :
  ~ five_line_entry (strftime t0) 5 (fst client)
      (logfile (snd (do_POST Literals.json_loads Literals.str_json one_gib
                             text_post t0
                             (new_connection (bs "hello") (boot [])))))
  /\ ~ five_line_entry (strftime t0) 5 (fst client)
        (logfile (snd (do_POST Literals.json_loads Literals.str_json one_gib
                               text_post t0
                               (new_connection [x61; x0a; x62; x63; x64]
                                               (boot [])))))
  /\ lines (logfile (snd (do_POST Literals.json_loads Literals.str_json
                                  one_gib text_post t0
                                  (new_connection [x61; x0a; x62; x63; x64]
                                                  (boot [])))))
     = [txt "2025-09-06 12:00:05 - 5 bytes from 127.0.0.1";
        txt "Headers: {'Content-Type': 'text/plain', 'Content-Length': '5'}";
        txt "Data: a";
        txt "bcd";
        txt "---"].
Proof.
  split; [|split].
  - intros (l1 & l2 & l3 & l4 & l5 & Hlines & _).
    vm_compute in Hlines. discriminate.
  - intros (l1 & l2 & l3 & l4 & l5 & Hlines & _ & _ & _ & H3 & _).
    vm_compute in Hlines. injection Hlines as _ _ <- _ _.
    vm_compute in H3. discriminate.
  - vm_compute. reflexivity.
Qed.

(** C8, amended.  The entry that a POST appends to the log file consists,
    in order, of one line holding the time stamp, the byte count and the
    client address, a headers line, a data record and the separator line
    [---], each ended by a line feed.  The headers line and the
    separator are always single lines; with a data record free of line
    feeds the entry has exactly these four lines.  What the data record
    holds is stated for a body that is valid UTF-8 only: [Data: ]
    followed by the decoded body. *)
Theorem log_entry_lines
        (JSON : Type) (json_loads : pystr -> checked JSON)
        (str_json : JSON -> pystr) (max_read : N)
        (self : handler) (now : struct_time) (stream : bytes) (w : state)
        (n : Z) :
  content_length self = Some n -> readable max_read n = true ->
  let post_data := firstn (read_count n stream) stream in
  let head := txt (strftime now ++ " - " ++ dec_nat (length post_data)
                   ++ " bytes from " ++ fst (client_address self)) in
  let headers_line :=
    txt ("Headers: " ++ repr_dict (dict_of_headers (headers self))) in
  exists data,
    logfile (snd (do_POST json_loads str_json max_read self now
                          (new_connection stream w)))
    = logfile w ++ head ++ [nl] ++ headers_line ++ [nl]
      ++ data ++ [nl] ++ txt "---" ++ [nl]
    /\ one_line headers_line
    /\ one_line (txt "---")
    /\ (all_chars no_newline (fst (client_address self)) = true ->
        one_line head)
    /\ (all_chars no_newline (fst (client_address self)) = true ->
        one_line data ->
        lines (head ++ [nl] ++ headers_line ++ [nl]
               ++ data ++ [nl] ++ txt "---" ++ [nl])
        = [head; headers_line; data; txt "---"])
    /\ (forall text,
          utf8_decode Strict 0 post_data = inl text ->
          data = txt "Data: " ++ text).
Proof.
  intros Hlen Hn post_data head headers_line.
  exists (entry_data post_data).
  rewrite (do_POST_run json_loads str_json max_read _ now
             (new_connection stream w) Hlen Hn).
  cbn [snd]. fields.
  split; [reflexivity|].
  split; [apply entry_headers_one_line|].
  split; [apply separator_one_line|].
  split; [intros Hip; apply entry_head_one_line; exact Hip|].
  split.
  - intros Hip Hbody.
    apply lines_of_four;
      [ apply entry_head_one_line; exact Hip
      | apply entry_headers_one_line
      | exact Hbody
      | apply separator_one_line ].
  - intros text Htext. unfold entry_data.
    rewrite (strict_then_ignore _ Htext). reflexivity.
Qed.

Lemma log_entry_lines_witness :
  lines (logfile (snd (do_POST Literals.json_loads Literals.str_json one_gib
                               text_post t0
                               (new_connection (bs "hello world") (boot [])))))
  = [txt "2025-09-06 12:00:05 - 5 bytes from 127.0.0.1";
     txt "Headers: {'Content-Type': 'text/plain', 'Content-Length': '5'}";
     txt "Data: hello";
     txt "---"].
Proof.
  destruct (@log_entry_lines Literals.JSON Literals.json_loads
              Literals.str_json one_gib text_post t0 (bs "hello world")
              (boot []) 5%Z eq_refl eq_refl)
    as (data & Hlog & _ & _ & _ & Hlines & Hdata).
  rewrite Hlog. change (logfile (boot [])) with (@nil N).
  rewrite app_nil_l.
  rewrite (Hdata (txt "hello") eq_refl) in *.
  rewrite Hlines.
  - vm_compute. reflexivity.
  - reflexivity.
  - vm_compute. intuition discriminate.
Defined.

(** * Further properties of the code *)

(** ** [do_POST]: failure and reading *)


(** X2.  What [do_POST] takes off the connection, for a length [n] that
    is read: the first [n] bytes, all of the stream when it is shorter or
    when [n] is -1.  The entry counts the bytes taken, never more than
    the stream holds; the bytes after them stay unread, and nothing of
    the stream is lost between the body and the rest. *)
Theorem post_body_is_a_prefix
        (JSON : Type) (json_loads : pystr -> checked JSON)
        (str_json : JSON -> pystr) (max_read : N)
        (self : handler) (now : struct_time) (stream : bytes) (w : state)
        (n : Z) :
  content_length self = Some n -> readable max_read n = true ->
  let s' := snd (do_POST json_loads str_json max_read self now
                         (new_connection stream w)) in
  exists post_data,
    post_data ++ rfile s' = stream
    /\ length post_data
       = (if (n =? -1)%Z then length stream
          else Nat.min (Z.to_nat n) (length stream))
    /\ logfile s' = logfile w ++ log_entry self now post_data
    /\ stdout s'
       = stdout w ++ intercept_lines self now post_data
         ++ report str_json
              (interpret json_loads (content_type self) post_data).
Proof.
  intros Hlen Hn. cbv zeta.
  rewrite (do_POST_run json_loads str_json max_read _ now
             (new_connection stream w) Hlen Hn).
  cbn [snd]. fields.
  exists (firstn (read_count n stream) stream).
  split; [apply firstn_skipn|]. split; [|auto].
  unfold read_count. destruct (n =? -1)%Z.
  - rewrite firstn_all. reflexivity.
  - apply length_firstn.
Qed.

Lemma post_body_is_a_prefix_witness :
  exists post_data,
    post_data
    ++ rfile (snd (do_POST Literals.json_loads Literals.str_json one_gib
                           text_post t0
                           (new_connection (bs "hello world") (boot []))))
    = bs "hello world"
    /\ length post_data = 5.
Proof.
  destruct (@post_body_is_a_prefix Literals.JSON Literals.json_loads
              Literals.str_json one_gib text_post t0 (bs "hello world")
              (boot []) 5%Z eq_refl eq_refl)
    as (post_data & Hsplit & Hlength & _).
  exists post_data. split; [exact Hsplit | exact Hlength].
Defined.

(** ** [start_server] and the end of [main] *)

(** X3.  [start_server] by outcome of the bind.  A bound port is
    announced and listens.  [OSError] and [KeyboardInterrupt] are
    swallowed: one line is printed, the port does not listen and the
    call returns.  Every other exception leaves [start_server] as it
    came, with nothing printed.  The log file is not touched in any
    case. *)
Theorem start_server_outcomes
        (port : N) (name : string) (o : bind_outcome) (s : state) :
  let r := start_server port name o s in
  logfile (snd r) = logfile s /\ trace (snd r) = trace s
  /\ match o with
     | Bound =>
         fst r = Ok tt /\ listening (snd r) = listening s ++ [port]
         /\ stdout (snd r)
            = stdout s ++ [txt ("Mock " ++ name
                                ++ " server running on localhost:"
                                ++ dec port)]
     | BindRaises (Exc (OSError _ _)) =>
         fst r = Ok tt /\ listening (snd r) = listening s
         /\ length (stdout (snd r)) = S (length (stdout s))
     | BindRaises KeyboardInterrupt =>
         fst r = Ok tt /\ listening (snd r) = listening s
         /\ stdout (snd r)
            = stdout s ++ [nl :: txt (name ++ " server shutting down...")]
     | BindRaises e => r = (Raise e, s)
     end.
Proof.
  cbv zeta. unfold start_server, try_except.
  destruct o as [|[[msg|b p q why|c p q why|errno strerror|msg| |msg]| |code]];
    cbn [raise]; unfold bind; rewrite ?print_txt, ?print_nl_txt;
    cbn [add_listener printing fst snd stdout logfile trace listening];
    try (repeat split; reflexivity).
  destruct (errno =? 98)%Z; rewrite ?print_txt, ?print_txt_exc;
    cbn [printing fst snd stdout logfile trace listening];
    repeat split; rewrite length_app; cbn [length]; lia.
Qed.

Lemma idle_run sleeps s : idle sleeps s = (Raise KeyboardInterrupt, s).
Proof.
  induction sleeps as [|k IH]; [reflexivity|].
  cbn [idle]. unfold bind. cbn [ret]. exact IH.
Qed.

Lemma wait_for_interrupt_run sleeps s :
  wait_for_interrupt sleeps s
  = (Raise (SystemExit 0),
     printing [nl :: txt "Shutting down mock telemetry servers..."] s).
Proof.
  unfold wait_for_interrupt, try_except. rewrite idle_run.
  unfold bind. rewrite print_nl_txt. reflexivity.
Qed.

(** X4.  The process from start to interrupt.  Whatever the binds did,
    whatever requests came and however long [main] slept, the interrupt
    makes [main] print the shutdown notice and leave with
    [SystemExit(0)]: the exit status is 0.  Shutting down does not touch
    the log file, which holds the header and the entries of the run. *)
Theorem interrupt_exits_with_status_0
        (JSON : Type) (json_loads : pystr -> checked JSON)
        (str_json : JSON -> pystr) (max_read : N)
        (now : struct_time) (tcp_server : N -> bind_outcome)
        (requests : list request) (sleeps : nat) (previous : pystr) :
  let r := lifetime json_loads str_json max_read now tcp_server requests
                    sleeps (boot previous) in
  let before := snd (run json_loads str_json max_read now tcp_server
                         requests (boot previous)) in
  fst r = Raise (SystemExit 0)
  /\ stdout (snd r)
     = stdout before ++ [nl :: txt "Shutting down mock telemetry servers..."]
  /\ trace (snd r) = trace before
  /\ logfile (snd r)
     = log_header now
       ++ concat (map (entry_of max_read (bound_ports tcp_server)) requests).
Proof.
  cbv zeta. unfold lifetime, run.
  destruct (main_run now tcp_server (boot previous))
    as (s1 & Hm & Hlog & _ & Hl & _).
  destruct (serve_requests_run json_loads str_json max_read requests s1)
    as (s2 & Hs & Hlog2 & _ & _).
  change (listening (boot previous) ++ bound_ports tcp_server)
    with (bound_ports tcp_server) in Hl.
  assert (Hrun : (main now tcp_server ;;
                  for_each requests
                    (serve_request json_loads str_json max_read))
                   (boot previous) = (Ok tt, s2))
    by (rewrite (bind_ok _ _ _ Hm); exact Hs).
  rewrite (bind_ok _ _ _ Hrun), Hrun, wait_for_interrupt_run.
  cbn [fst snd]. fields.
  rewrite Hlog2, Hlog, Hl. auto.
Qed.

(** ** Headers *)

Lemma lower_char_idem c : lower_char (lower_char c) = lower_char c.
Proof. destruct c as [[] [] [] [] [] [] [] []]; reflexivity. Qed.

Lemma lower_idem s : lower (lower s) = lower s.
Proof.
  induction s as [|c s IH]; cbn [lower]; [reflexivity|].
  rewrite lower_char_idem, IH. reflexivity.
Qed.

Lemma headers_get_same_lower h a b :
  lower a = lower b -> headers_get h a = headers_get h b.
Proof.
  intros Hab. induction h as [|[k v] h IH]; cbn [headers_get]; [reflexivity|].
  rewrite Hab, IH. reflexivity.
Qed.

Lemma headers_get_rename f h name :
  (forall k, lower (f k) = lower k) ->
  headers_get (rename_headers f h) name = headers_get h name.
Proof.
  intros Hf. induction h as [|[k v] h IH]; [reflexivity|].
  cbn [rename_headers map headers_get fst snd].
  rewrite Hf. fold (rename_headers f h). rewrite IH. reflexivity.
Qed.

(** X5.  The handler finds [Content-Length] and [Content-Type] whatever
    the case of the letters in the names of the headers: respelling the
    names of a request changes neither the length that is read nor the
    content type that selects the interpretation. *)
Theorem header_names_ignore_case
        (f : string -> string) (h : list (string * string))
        (client : string * N) (p : string) :
  (forall k, lower (f k) = lower k) ->
  content_length (mkHandler (rename_headers f h) client p)
  = content_length (mkHandler h client p)
  /\ content_type (mkHandler (rename_headers f h) client p)
     = content_type (mkHandler h client p).
Proof.
  intros Hf. unfold content_length, content_type. cbn [headers].
  rewrite !headers_get_rename by exact Hf. auto.
Qed.

Lemma header_names_ignore_case_witness :
  content_length
    (mkHandler (rename_headers lower
                  [("CONTENT-TYPE", "text/plain");
                   ("Content-LENGTH", "5")]%string)
               client "/v1/traces")
  = Some 5%Z.
Proof.
  destruct (header_names_ignore_case lower
              [("CONTENT-TYPE", "text/plain"); ("Content-LENGTH", "5")]%string
              client "/v1/traces" lower_idem) as [Hlen _].
  rewrite Hlen. reflexivity.
Defined.

Lemma dict_set_known (g : string -> option string) ks k :
  dict_set (map (fun k => (k, g k)) ks) k (g k)
  = if existsb (String.eqb k) ks
    then map (fun k => (k, g k)) ks
    else map (fun k => (k, g k)) (ks ++ [k]).
Proof.
  induction ks as [|k' ks IH]; [reflexivity|].
  cbn [map dict_set existsb app].
  destruct (String.eqb_spec k k') as [->|Hk]; cbn [orb]; [reflexivity|].
  rewrite IH. destruct (existsb (String.eqb k) ks); reflexivity.
Qed.

Lemma dict_fold (g : string -> option string) (l : list (string * string)) :
  forall ks,
    fold_left (fun d kv => dict_set d (fst kv) (g (fst kv))) l
              (map (fun k => (k, g k)) ks)
    = map (fun k => (k, g k)) (ks ++ first_occurrences ks (map fst l)).
Proof.
  induction l as [|[k v] l IH]; intros ks.
  - cbn. rewrite app_nil_r. reflexivity.
  - cbn [fold_left map fst first_occurrences]. rewrite dict_set_known.
    destruct (existsb (String.eqb k) ks).
    + apply IH.
    + rewrite IH, <- app_assoc. reflexivity.
Qed.

Lemma headers_get_present h k :
  In k (map fst h) -> exists v, headers_get h k = Some v.
Proof.
  induction h as [|[k' v'] h IH]; cbn [map fst In headers_get]; [tauto|].
  intros [->|Hin].
  - rewrite String.eqb_refl. eauto.
  - destruct (String.eqb (lower k') (lower k)); eauto.
Qed.

(** X6.  The header mapping that [do_POST] prints and logs,
    [dict(self.headers)]: one item for every spelling of a header name,
    in the order of its first occurrence, whose value is the value of
    the first header with that name, case ignored.  The values of later
    headers of the same name do not reach the console or the log. *)
Theorem logged_headers_first_value (h : list (string * string)) :
  dict_of_headers h
  = map (fun k => (k, headers_get h k)) (first_occurrences [] (map fst h))
  /\ forall k v, In (k, v) (dict_of_headers h) ->
                 exists first, v = Some first /\ headers_get h k = Some first.
Proof.
  assert (Hd : dict_of_headers h
               = map (fun k => (k, headers_get h k))
                     (first_occurrences [] (map fst h)))
    by (unfold dict_of_headers; apply (dict_fold (headers_get h) h [])).
  split; [exact Hd|].
  intros k v Hin. rewrite Hd in Hin.
  apply in_map_iff in Hin as (k0 & Heq & Hin0). injection Heq as -> <-.
  assert (Hk : In k (map fst h)).
  { clear Hd. revert Hin0. generalize (@nil string).
    induction (map fst h) as [|a l IH]; intros seen; cbn [first_occurrences];
      [tauto|].
    destruct (existsb (String.eqb a) seen).
    - intros Hin. right. exact (IH _ Hin).
    - intros [->|Hin]; [left; reflexivity | right; exact (IH _ Hin)]. }
  destruct (headers_get_present h k Hk) as [first Hfirst].
  exists first. auto.
Qed.

(** ** The two decodings of the body *)

(** X7.  The body is decoded twice, strictly for the JSON parser and
    with errors ignored for the log file.  On a body that is valid UTF-8
    the two agree: the data record of the entry is [Data: ] followed by
    the very text that the strict decoding gives the parser. *)
Theorem valid_body_logged_as_parsed
        (post_data : bytes) (text : pystr) (s : state) :
  utf8_decode Strict 0 post_data = inl text ->
  decode Strict post_data s = (Ok text, s)
  /\ decode Ignore post_data s = (Ok text, s)
  /\ entry_data post_data = txt "Data: " ++ text.
Proof.
  intros H. unfold entry_data.
  rewrite decode_ignore_run, (strict_then_ignore _ H).
  unfold decode, lift. rewrite H. auto.
Qed.

Lemma valid_body_logged_as_parsed_witness :
  entry_data [xe2; x82; xac; x31] = txt "Data: " ++ [8364%N; 49%N].
Proof.
  apply (valid_body_logged_as_parsed [xe2; x82; xac; x31] (boot [])).
  reflexivity.
Defined.

Lemma ascii_decode errors data :
  forall pos,
    forallb is_ascii_byte data = true ->
    utf8_decode errors pos data = inl (map Byte.to_N data).
Proof.
  induction data as [|b r IH]; intros pos H; [reflexivity|].
  cbn [forallb] in H. apply andb_true_iff in H as [Hb Hr].
  cbn [utf8_decode map]. unfold seq_len.
  unfold is_ascii_byte in Hb. rewrite Hb.
  rewrite (IH _ Hr). reflexivity.
Qed.

(** X8.  An ASCII body reaches the log file byte for byte: the data
    record of the entry is [Data: ] followed by the bytes of the body as
    characters, and no decoding, strict or not, fails on it. *)
Theorem ascii_body_logged_verbatim (post_data : bytes) :
  forallb is_ascii_byte post_data = true ->
  entry_data post_data = txt "Data: " ++ map Byte.to_N post_data
  /\ utf8_decode Strict 0 post_data = inl (map Byte.to_N post_data)
  /\ length (decode_ignore post_data) = length post_data.
Proof.
  intros H. unfold entry_data, decode_ignore.
  rewrite !(ascii_decode _ _ 0 H), length_map. auto.
Qed.

Lemma ascii_body_logged_verbatim_witness :
  entry_data (bs "hello") = txt "Data: hello".
Proof.
  destruct (ascii_body_logged_verbatim (bs "hello") eq_refl) as [H _].
  rewrite H. reflexivity.
Defined.

(** ** A request that fails among others *)

Section Isolation.

Variable JSON : Type.
Variable json_loads : pystr -> checked JSON.
Variable str_json : JSON -> pystr.
Variable max_read : N.

Lemma same_world_refl s : same_world s s.
Proof. unfold same_world. auto. Qed.

Lemma same_world_trans s1 s2 s3 :
  same_world s1 s2 -> same_world s2 s3 -> same_world s1 s3.
Proof.
  unfold same_world. intros (A & B & C & D) (A' & B' & C' & D').
  rewrite A, B, C, D. auto.
Qed.

Lemma new_connection_same_world stream s s' :
  same_world s s' -> new_connection stream s = new_connection stream s'.
Proof.
  unfold same_world, new_connection. intros (-> & -> & -> & ->). reflexivity.
Qed.

Lemma serve_request_ok r s :
  fst (serve_request json_loads str_json max_read r s) = Ok tt.
Proof.
  unfold serve_request.
  destruct (existsb (N.eqb (req_port r)) (listening s)); reflexivity.
Qed.

(** A request sees of the state of the process the console, the log
    file and the listeners only. *)
Lemma serve_request_same_world r s s' :
  same_world s s' ->
  same_world (snd (serve_request json_loads str_json max_read r s))
             (snd (serve_request json_loads str_json max_read r s')).
Proof.
  intros H. unfold serve_request.
  rewrite (new_connection_same_world (req_stream r) H).
  destruct H as (A & B & C & D). rewrite D.
  destruct (existsb (N.eqb (req_port r)) (listening s')); cbn [snd].
  - apply same_world_refl.
  - unfold same_world. auto.
Qed.

Lemma serve_requests_same_world rs :
  forall s s',
    same_world s s' ->
    same_world
      (snd (for_each rs (serve_request json_loads str_json max_read) s))
      (snd (for_each rs (serve_request json_loads str_json max_read) s')).
Proof.
  induction rs as [|r rs IH]; intros s s' H; [exact H|].
  cbn [for_each]. unfold bind.
  pose proof (serve_request_ok r s) as Hs.
  pose proof (serve_request_ok r s') as Hs'.
  pose proof (serve_request_same_world r H) as Hw.
  destruct (serve_request json_loads str_json max_read r s) as [x1 s1].
  destruct (serve_request json_loads str_json max_read r s') as [x2 s2].
  cbn [fst snd] in *. subst x1 x2. apply IH. exact Hw.
Qed.

Lemma serve_requests_app rs1 rs2 s :
  snd (for_each (rs1 ++ rs2) (serve_request json_loads str_json max_read) s)
  = snd (for_each rs2 (serve_request json_loads str_json max_read)
           (snd (for_each rs1
                   (serve_request json_loads str_json max_read) s))).
Proof.
  revert s. induction rs1 as [|r rs1 IH]; intros s; [reflexivity|].
  rewrite <- app_comm_cons. cbn [for_each]. unfold bind.
  pose proof (serve_request_ok r s) as Hs.
  destruct (serve_request json_loads str_json max_read r s) as [x1 s1].
  cbn [fst] in Hs. subst x1. apply IH.
Qed.

Lemma failed_post_same_world (r : request) (s : state) :
  req_method r = POST -> body_read max_read r = None ->
  same_world (snd (serve_request json_loads str_json max_read r s)) s.
Proof.
  intros Hm Hb. unfold serve_request, handle. rewrite Hm.
  destruct (existsb (N.eqb (req_port r)) (listening s));
    [|apply same_world_refl].
  assert (Hraise : exists e,
             do_POST json_loads str_json max_read (req_handler r) (req_now r)
                     (new_connection (req_stream r) s)
             = (Raise e, new_connection (req_stream r) s)).
  { unfold body_read in Hb.
    destruct (content_length (req_handler r)) as [n|] eqn:Hlen.
    - destruct (readable max_read n) eqn:Hn; [discriminate|].
      apply (do_POST_unreadable json_loads str_json max_read _ _ _ Hlen Hn).
    - unfold content_length in Hlen.
      destruct (headers_get (headers (req_handler r)) "Content-Length")
        as [v|] eqn:Hget; [|discriminate].
      rewrite (do_POST_bad_length json_loads str_json max_read _ _ _ Hget
                 Hlen).
      eauto. }
  destruct Hraise as [e ->]. cbn [snd].
  unfold same_world. fields. auto.
Qed.

End Isolation.

(** X9.  A POST that fails, by a [Content-Length] that [int] or [read]
    rejects, is as if it had not come: in any sequence of requests, the
    console, the log file, its history and the listeners end up the same
    with the failing request and without it.  The server goes on
    serving, and the requests that follow are handled as they would have
    been. *)
Theorem failed_post_leaves_no_trace
        (JSON : Type) (json_loads : pystr -> checked JSON)
        (str_json : JSON -> pystr) (max_read : N)
        (bad : request) (before after : list request) (s : state) :
  req_method bad = POST -> body_read max_read bad = None ->
  same_world
    (snd (for_each (before ++ bad :: after)
                   (serve_request json_loads str_json max_read) s))
    (snd (for_each (before ++ after)
                   (serve_request json_loads str_json max_read) s)).
Proof.
  intros Hm Hb. rewrite !serve_requests_app.
  cbn [for_each]. unfold bind.
  set (s1 := snd (for_each before
                    (serve_request json_loads str_json max_read) s)).
  pose proof (serve_request_ok json_loads str_json max_read bad s1) as Hok.
  pose proof (@failed_post_same_world _ json_loads str_json max_read bad s1
                Hm Hb) as Hw.
  destruct (serve_request json_loads str_json max_read bad s1) as [x s2].
  cbn [fst snd] in *. subst x.
  apply serve_requests_same_world. exact Hw.
Qed.

Lemma failed_post_leaves_no_trace_witness :
  same_world
    (snd (for_each
            ([mkRequest 4317 POST text_post (bs "hello") t0]
             ++ mkRequest 4317 POST bad_length_post (bs "null") t0
             :: [mkRequest 4317 GET probe [] t0])
            (serve_request Literals.json_loads Literals.str_json one_gib)
            (snd (main t0 all_bound (boot [])))))
    (snd (for_each
            ([mkRequest 4317 POST text_post (bs "hello") t0]
             ++ [mkRequest 4317 GET probe [] t0])
            (serve_request Literals.json_loads Literals.str_json one_gib)
            (snd (main t0 all_bound (boot []))))).
Proof.
  apply (failed_post_leaves_no_trace Literals.json_loads Literals.str_json
           one_gib (mkRequest 4317 POST bad_length_post (bs "null") t0)
           [mkRequest 4317 POST text_post (bs "hello") t0]
           [mkRequest 4317 GET probe [] t0]);
    reflexivity.
Defined.

(** ** [int] on the decimal text of a number *)

Lemma uint_value_pos d :
  forall acc, uint_value d (Npos acc) = Npos (Pos.of_uint_acc d acc).
Proof.
  induction d; intros acc; cbn [uint_value Pos.of_uint_acc];
    try reflexivity;
    match goal with
    | |- uint_value _ ?x = N.pos (Pos.of_uint_acc _ ?y) =>
        replace x with (N.pos y) by lia; apply IHd
    end.
Qed.

Lemma uint_value_0 d : uint_value d 0 = Pos.of_uint d.
Proof.
  induction d; cbn [uint_value Pos.of_uint]; try reflexivity;
    try (change (10 * 0 + 0)%N with 0%N; exact IHd);
    match goal with
    | |- uint_value _ ?x = N.pos (Pos.of_uint_acc _ ?y) =>
        change x with (N.pos y); apply uint_value_pos
    end.
Qed.

Lemma parse_digits_uint d :
  forall acc b,
    d <> Nil \/ b = true ->
    parse_digits (NilEmpty.string_of_uint d) acc b
    = Some (uint_value d acc).
Proof.
  induction d; intros acc b Hb;
    [destruct Hb as [Hb | ->]; [congruence | reflexivity] | ..];
    cbn [NilEmpty.string_of_uint uint_value];
    match goal with
    | |- parse_digits (String ?c ?r) ?a ?f = Some (uint_value _ ?x) =>
        change (parse_digits (String c r) a f) with (parse_digits r x true)
    end;
    apply IHd; auto.
Qed.

Lemma rev_string_twice s :
  forall acc, rev_string EmptyString (rev_string acc s) = rev_string s acc.
Proof.
  induction s as [|c s IH]; intros acc; [reflexivity|].
  cbn [rev_string]. rewrite IH. reflexivity.
Qed.

Lemma all_chars_rev P s :
  forall acc,
    all_chars P (rev_string acc s) = all_chars P acc && all_chars P s.
Proof.
  induction s as [|c s IH]; intros acc; cbn [rev_string all_chars].
  - rewrite andb_true_r. reflexivity.
  - rewrite IH. cbn [all_chars].
    destruct (P c), (all_chars P acc), (all_chars P s); reflexivity.
Qed.

Lemma lstrip_id s :
  all_chars (fun c => negb (is_space c)) s = true -> lstrip s = s.
Proof.
  destruct s as [|c s]; [reflexivity|]. cbn [all_chars lstrip].
  intros H. apply andb_true_iff in H as [Hc _].
  destruct (is_space c); [discriminate | reflexivity].
Qed.

Lemma strip_id s :
  all_chars (fun c => negb (is_space c)) s = true -> strip s = s.
Proof.
  intros H. unfold strip. rewrite (lstrip_id _ H).
  rewrite lstrip_id by (rewrite all_chars_rev; exact H).
  rewrite rev_string_twice. reflexivity.
Qed.

Lemma digit_not_space c :
  is_digit c = true -> negb (is_space c) = true.
Proof.
  destruct c as [[] [] [] [] [] [] [] []]; vm_compute; congruence.
Qed.

Lemma uint_no_space d :
  all_chars (fun c => negb (is_space c)) (NilEmpty.string_of_uint d) = true.
Proof.
  apply all_chars_impl with (P := is_digit);
    [exact digit_not_space | apply digits_of_uint].
Qed.

Lemma run_digits_uint d :
  run_digits (NilEmpty.string_of_uint d) = N.of_nat (Decimal.nb_digits d).
Proof.
  induction d; cbn [NilEmpty.string_of_uint Decimal.nb_digits];
    [reflexivity | ..];
    rewrite Nat2N.inj_succ, <- IHd; reflexivity.
Qed.

Lemma nb_digits_double d :
  Decimal.nb_digits (Decimal.Little.double d) <= S (Decimal.nb_digits d)
  /\ Decimal.nb_digits (Decimal.Little.succ_double d)
     <= S (Decimal.nb_digits d).
Proof.
  induction d as [|d [IH1 IH2]|d [IH1 IH2]|d [IH1 IH2]|d [IH1 IH2]
                  |d [IH1 IH2]|d [IH1 IH2]|d [IH1 IH2]|d [IH1 IH2]
                  |d [IH1 IH2]|d [IH1 IH2]];
    cbn [Decimal.Little.double Decimal.Little.succ_double Decimal.nb_digits];
    lia.
Qed.

Lemma nb_digits_little p :
  Decimal.nb_digits (Pos.to_little_uint p) <= Pos.size_nat p.
Proof.
  induction p as [p IH|p IH|]; cbn [Pos.to_little_uint Pos.size_nat].
  - pose proof (proj2 (nb_digits_double (Pos.to_little_uint p))). lia.
  - pose proof (proj1 (nb_digits_double (Pos.to_little_uint p))). lia.
  - cbn. lia.
Qed.

Lemma nb_digits_revapp d :
  forall d', Decimal.nb_digits (Decimal.revapp d d')
             = Decimal.nb_digits d + Decimal.nb_digits d'.
Proof.
  induction d; intros d'; cbn [Decimal.revapp Decimal.nb_digits];
    [reflexivity | ..]; rewrite IHd; cbn [Decimal.nb_digits]; lia.
Qed.

Lemma nb_digits_pos p : Decimal.nb_digits (Pos.to_uint p) <= Pos.size_nat p.
Proof.
  unfold Pos.to_uint, Decimal.rev. rewrite nb_digits_revapp.
  cbn [Decimal.nb_digits]. pose proof (nb_digits_little p). lia.
Qed.

Lemma size_nat_bound p :
  forall n, (Z.pos p < 2 ^ Z.of_nat n)%Z -> Pos.size_nat p <= n.
Proof.
  induction p as [p IH|p IH|]; intros n H; cbn [Pos.size_nat];
    (destruct n as [|n]; [cbn in H; lia|]);
    rewrite Nat2Z.inj_succ, Z.pow_succ_r in H by lia.
  - specialize (IH n). lia.
  - specialize (IH n). lia.
  - lia.
Qed.

(** A number below [2 ^ 4300] is written with 4300 digits at most. *)
Lemma few_digits p :
  (Z.pos p < 2 ^ 4300)%Z ->
  too_many_digits (NilEmpty.string_of_uint (Pos.to_uint p)) = false
  /\ too_many_digits (String "-" (NilEmpty.string_of_uint (Pos.to_uint p)))
     = false.
Proof.
  intros H.
  assert (Hd : (run_digits (NilEmpty.string_of_uint (Pos.to_uint p))
                <= 4300)%N).
  { rewrite run_digits_uint.
    pose proof (nb_digits_pos p) as H1.
    pose proof (@size_nat_bound p 4300 H) as H2.
    change 4300%N with (N.of_nat 4300). lia. }
  unfold too_many_digits, int_max_str_digits.
  rewrite strip_id by apply uint_no_space.
  rewrite strip_id
    by (cbn [all_chars]; rewrite uint_no_space; reflexivity).
  cbn [unsigned_part].
  split; [|apply N.ltb_ge; exact Hd].
  apply N.ltb_ge.
  destruct (Pos.to_uint p) eqn:E;
    try exact Hd;
    cbn [NilEmpty.string_of_uint unsigned_part] in *; exact Hd.
Qed.

Lemma parse_int_uint d :
  d <> Nil ->
  too_many_digits (NilEmpty.string_of_uint d) = false ->
  parse_int (NilEmpty.string_of_uint d) = Some (Z.of_N (uint_value d 0)).
Proof.
  intros Hd Hfew. unfold parse_int. rewrite Hfew.
  rewrite (strip_id _ (uint_no_space d)).
  destruct d; [congruence | ..];
    cbn [NilEmpty.string_of_uint];
    match goal with
    | |- context [String ?c (NilEmpty.string_of_uint ?d')] =>
        change (option_map Z.of_N
                  (parse_digits (String c (NilEmpty.string_of_uint d')) 0
                                false)
                = Some (Z.of_N (uint_value d' (10 * 0 + (code c - 48)))))
    end;
    change (parse_digits (String ?c ?r) 0 false)
      with (parse_digits r (10 * 0 + (code c - 48))%N true);
    rewrite parse_digits_uint by auto; reflexivity.
Qed.

Lemma parse_int_neg_uint d :
  d <> Nil ->
  too_many_digits (String "-" (NilEmpty.string_of_uint d)) = false ->
  parse_int (String "-" (NilEmpty.string_of_uint d))
  = Some (- Z.of_N (uint_value d 0))%Z.
Proof.
  intros Hd Hfew. unfold parse_int. rewrite Hfew.
  rewrite strip_id
    by (cbn [all_chars]; rewrite uint_no_space; reflexivity).
  change (option_map (fun n => (- Z.of_N n)%Z)
            (parse_digits (NilEmpty.string_of_uint d) 0 false)
          = Some (- Z.of_N (uint_value d 0))%Z).
  rewrite parse_digits_uint by auto. reflexivity.
Qed.

Lemma nilzero_nonnil d :
  d <> Nil -> NilZero.string_of_uint d = NilEmpty.string_of_uint d.
Proof. destruct d; [congruence | reflexivity..]. Qed.

Lemma parse_int_decZ z : (Z.abs z < 2 ^ 4300)%Z -> parse_int (decZ z) = Some z.
Proof.
  intros Hz.
  unfold decZ. destruct z as [|p|p]; [reflexivity | |];
    cbn [Z.to_int NilZero.string_of_int];
    rewrite (nilzero_nonnil (DecimalPos.Unsigned.to_uint_nonnil p));
    destruct (few_digits Hz) as [Hpos Hneg].
  - rewrite (parse_int_uint (DecimalPos.Unsigned.to_uint_nonnil p) Hpos).
    rewrite uint_value_0, DecimalPos.Unsigned.of_to. reflexivity.
  - rewrite (parse_int_neg_uint (DecimalPos.Unsigned.to_uint_nonnil p) Hneg).
    rewrite uint_value_0, DecimalPos.Unsigned.of_to. reflexivity.
Qed.

Lemma digits_run s :
  all_chars is_digit s = true -> run_digits s = N.of_nat (String.length s).
Proof.
  induction s as [|c s IH]; [reflexivity|].
  cbn [all_chars run_digits String.length]. intros H.
  apply andb_true_iff in H as [Hc Hs].
  rewrite Hc, (IH Hs), Nat2N.inj_succ. reflexivity.
Qed.

(** X10.  [int] reads back what [str] writes: a [Content-Length] header
    whose value is the decimal text of an integer gives the handler that
    integer as the length to read, zero and negative numbers included,
    as long as the text has no more than the 4300 digits that [int]
    takes, which is so for every integer below [2 ^ 4300] in absolute
    value. *)
Theorem content_length_of_decimal (self : handler) (z : Z) :
  (Z.abs z < 2 ^ 4300)%Z ->
  headers_get (headers self) "Content-Length" = Some (decZ z) ->
  content_length self = Some z.
Proof.
  intros Hz H. unfold content_length. rewrite H. apply parse_int_decZ.
  exact Hz.
Qed.

Lemma content_length_of_decimal_witness :
  content_length
    (post_with [("Content-Type", "text/plain");
                ("Content-Length", decZ 16384)]%string)
  = Some 16384%Z.
Proof.
  apply (content_length_of_decimal
           (post_with [("Content-Type", "text/plain");
                       ("Content-Length", decZ 16384)]%string) 16384).
  - vm_compute. reflexivity.
  - reflexivity.
Defined.

(** A text of more than 4300 digits is not a length. *)
Lemma long_decimal_rejected (self : handler) (v : string) :
  all_chars is_digit v = true -> 4300 < String.length v ->
  headers_get (headers self) "Content-Length" = Some v ->
  content_length self = None.
Proof.
  intros Hv Hlong H. unfold content_length. rewrite H.
  unfold parse_int, too_many_digits, int_max_str_digits.
  rewrite strip_id
    by (apply all_chars_impl with (P := is_digit);
        [exact digit_not_space | exact Hv]).
  assert (Hu : unsigned_part v = v).
  { destruct v as [|c v']; [reflexivity|]. cbn [all_chars] in Hv.
    apply andb_true_iff in Hv as [Hc _].
    destruct c as [[] [] [] [] [] [] [] []]; try reflexivity;
      vm_compute in Hc; discriminate Hc. }
  rewrite Hu, (digits_run _ Hv).
  replace (4300 <? N.of_nat (String.length v))%N with true; [reflexivity|].
  symmetry. apply N.ltb_lt. change 4300%N with (N.of_nat 4300). lia.
Qed.

(** ** Line feeds in an entry *)

Lemma line_feeds_app a b : line_feeds (a ++ b) = line_feeds a + line_feeds b.
Proof. unfold line_feeds. apply count_occ_app. Qed.

Lemma line_feeds_one_line t : one_line t -> line_feeds t = 0.
Proof.
  unfold one_line, line_feeds. intros H. apply count_occ_not_In. exact H.
Qed.

Lemma line_feeds_nl : line_feeds [nl] = 1.
Proof. reflexivity. Qed.

(** X11.  The line feeds of an entry are the four that end its records
    and those of the decoded body: neither the time stamp, the byte
    count nor the header mapping, whose characters [repr] escapes, can
    open a line in the log file; a body with [k] line feeds spreads its
    data record over [k + 1] lines. *)
Theorem entry_line_feeds
        (self : handler) (now : struct_time) (post_data : bytes) :
  all_chars no_newline (fst (client_address self)) = true ->
  line_feeds (log_entry self now post_data)
  = 4 + line_feeds (decode_ignore post_data).
Proof.
  intros Hip. unfold log_entry, entry_data.
  rewrite !line_feeds_app, !line_feeds_nl.
  rewrite (line_feeds_one_line (entry_head_one_line now _ _ Hip)).
  rewrite (line_feeds_one_line (@entry_headers_one_line self)).
  rewrite (line_feeds_one_line separator_one_line).
  rewrite (line_feeds_one_line (t := txt "Data: "))
    by (apply one_line_txt; reflexivity).
  lia.
Qed.

Lemma entry_line_feeds_witness :
  line_feeds (log_entry text_post t0 [x61; x0a; x62; x0a; x63]) = 6.
Proof.
  rewrite (entry_line_feeds text_post t0 [x61; x0a; x62; x0a; x63] eq_refl).
  reflexivity.
Defined.

(** ** The characters of a decoded body *)

(** X12.  The text that [do_POST] decodes from a body, strictly or with
    errors ignored, holds Unicode scalar values only, no surrogate and
    nothing above U+10FFFF, and has at most as many characters as the
    body has bytes: the data record of an entry can always be encoded
    as UTF-8, and is never longer than the byte count on the first line
    of the entry. *)
Theorem decoded_text_is_unicode (errors : errors_mode) (data : bytes) :
  forallb scalar_value (decode_ignore data) = true
  /\ length (decode_ignore data) <= length data
  /\ forall text,
       utf8_decode errors 0 data = inl text ->
       forallb scalar_value text = true /\ length text <= length data.
Proof.
  assert (H : forallb scalar_value (decode_ignore data) = true
              /\ length (decode_ignore data) <= length data)
    by (apply (decoded_text_aux (n := length data) Ignore data 0 (le_n _));
        apply utf8_decode_ignore).
  destruct H as [H1 H2]. repeat split; try assumption;
    apply (decoded_text_aux (n := length data) errors data 0 (le_n _));
    assumption.
Qed.
